(** * Meta-evaluation service: regime detection, scoring, ranking, rotation

    A shallow embedding of [src/services/meta_evaluation_service.py].

    Conventions of the embedding.
    - A Python [float] is a rational [Q]: every finite double is a rational,
      comparisons agree, arithmetic is exact (no rounding).  Numeric equality
      is [==] ([Qeq]); the one place where pandas yields NaN (the standard
      deviation of fewer than two returns) is an [option Q].
    - A [datetime] is a number of microseconds since 1970-01-01T00:00:00 on
      the naive local time line ([Z]).
    - [random], the clock, the market-data provider and the database are read
      from an explicit [World]; every coroutine of the service is a function
      from a world to an outcome (a value or a raised exception) and the world
      it leaves behind.
    - Of the four background loops the body of one pass is embedded; their
      scheduling (tasks, sleeps, the [is_running] flag) and the log lines are
      not. *)

From Stdlib Require Import ZArith QArith Qabs String Ascii Bool Lia Lqa List.
From Stdlib Require Import Permutation Sorted.
Import ListNotations.

Local Open Scope Q_scope.

(** ** Python arithmetic on floats *)

Module Py.

Definition ltb (x y : Q) : bool := negb (Qle_bool y x).
Definition gtb (x y : Q) : bool := ltb y x.
Definition geb (x y : Q) : bool := Qle_bool y x.

(** [max(a, b)] returns [a] unless [b > a]; [min(a, b)] returns [a] unless
    [b < a]. *)
Definition max (a b : Q) : Q := if gtb b a then b else a.
Definition min (a b : Q) : Q := if ltb b a then b else a.

Definition sum (l : list Q) : Q := fold_left Qplus l 0.

Definition len {A} (l : list A) : Q := inject_Z (Z.of_nat (List.length l)).

(** [np.mean] / [Series.mean] of a non-empty sequence. *)
Definition mean (l : list Q) : Q := sum l / len l.

(** [l[-n:]], which is also what [Series.tail(n)] keeps. *)
Definition tail {A} (n : nat) (l : list A) : list A :=
  skipn (List.length l - n) l.

Lemma ltb_lt x y : ltb x y = true <-> x < y.
Proof.
  unfold ltb. rewrite negb_true_iff, <- not_true_iff_false, Qle_bool_iff.
  split; [apply Qnot_le_lt | apply Qlt_not_le].
Qed.

Lemma ltb_ge x y : ltb x y = false <-> y <= x.
Proof. unfold ltb. rewrite negb_false_iff. apply Qle_bool_iff. Qed.

Lemma gtb_gt x y : gtb x y = true <-> y < x.
Proof. apply ltb_lt. Qed.

Lemma gtb_le x y : gtb x y = false <-> x <= y.
Proof. apply ltb_ge. Qed.

Lemma min_cases a b : (b < a /\ min a b = b) \/ (a <= b /\ min a b = a).
Proof.
  unfold min. destruct (ltb b a) eqn:E.
  - left. now apply ltb_lt in E.
  - right. now apply ltb_ge in E.
Qed.

Lemma min_le_l a b : min a b <= a.
Proof.
  destruct (min_cases a b) as [[H ->] | [_ ->]];
    [now apply Qlt_le_weak | apply Qle_refl].
Qed.

End Py.

(** ** Text rendering: [strftime], [isoformat] and the [.2%] format *)

Module Fmt.

Local Open Scope Z_scope.
Local Open Scope string_scope.

Definition digit (d : Z) : ascii := ascii_of_nat (48 + Z.to_nat (d mod 10)).

(** The last [n] decimal digits of [z], zero padded ([%02d], [%04d], [%06d]). *)
Fixpoint padded (n : nat) (z : Z) : string :=
  match n with
  | O => EmptyString
  | S n' => padded n' (z / 10) ++ String (digit z) EmptyString
  end.

Fixpoint decimal_fuel (fuel : nat) (z : Z) : string :=
  match fuel with
  | O => EmptyString
  | S f =>
      if Z.ltb z 10 then String (digit z) EmptyString
      else decimal_fuel f (z / 10) ++ String (digit z) EmptyString
  end.

(** Decimal numeral of a non-negative integer. *)
Definition decimal (z : Z) : string := decimal_fuel (S (Z.to_nat (Z.log2 z))) z.

Definition us_per_second : Z := 1000000.
Definition us_per_day : Z := 86400 * us_per_second.

Record civil := { year : Z; month : Z; day : Z;
                  hour : Z; minute : Z; second : Z; microsecond : Z }.

(** Proleptic Gregorian date of a day number counted from 1970-01-01. *)
Definition civil_of (t : Z) : civil :=
  let days := t / us_per_day in
  let rest := t mod us_per_day in
  let z := days + 719468 in
  let era := z / 146097 in
  let doe := z - era * 146097 in
  let yoe := (doe - doe / 1460 + doe / 36524 - doe / 146096) / 365 in
  let doy := doe - (365 * yoe + yoe / 4 - yoe / 100) in
  let mp := (5 * doy + 2) / 153 in
  let d := doy - (153 * mp + 2) / 5 + 1 in
  let m := if Z.ltb mp 10 then mp + 3 else mp - 9 in
  let y := yoe + era * 400 + (if Z.leb m 2 then 1 else 0) in
  let secs := rest / us_per_second in
  {| year := y; month := m; day := d;
     hour := secs / 3600; minute := (secs / 60) mod 60; second := secs mod 60;
     microsecond := rest mod us_per_second |}.

(** [t.strftime('%Y%m%d_%H%M%S')] *)
Definition strftime_compact (t : Z) : string :=
  let c := civil_of t in
  padded 4 (year c) ++ padded 2 (month c) ++ padded 2 (day c) ++ "_" ++
  padded 2 (hour c) ++ padded 2 (minute c) ++ padded 2 (second c).

(** [t.isoformat()]: the fraction is printed only when it is not zero. *)
Definition isoformat (t : Z) : string :=
  let c := civil_of t in
  padded 4 (year c) ++ "-" ++ padded 2 (month c) ++ "-" ++ padded 2 (day c) ++
  "T" ++ padded 2 (hour c) ++ ":" ++ padded 2 (minute c) ++ ":" ++
  padded 2 (second c) ++
  (if Z.eqb (microsecond c) 0 then "" else "." ++ padded 6 (microsecond c)).

(** Nearest integer, ties to even. *)
Definition round_half_even (q : Q) : Z :=
  let n := Qnum q in
  let d := Z.pos (Qden q) in
  let f := n / d in
  let r := 2 * (n mod d) in
  if Z.ltb r d then f
  else if Z.ltb d r then f + 1
  else if Z.even f then f else f + 1.

(** [f"{q:.2%}"]: [q * 100] in fixed notation with two decimals, then [%]. *)
Definition percent2 (q : Q) : string :=
  let n := round_half_even (q * 10000)%Q in
  let a := Z.abs n in
  (if Z.ltb n 0 then "-" else "") ++
  decimal (a / 100) ++ "." ++ padded 2 a ++ "%".

End Fmt.

Example strftime_epoch : Fmt.strftime_compact 0 = "19700101_000000"%string.
Proof. reflexivity. Qed.

Example strftime_2026 :
  Fmt.strftime_compact 1793785445000000 = "20261104_094405"%string.
Proof. vm_compute. reflexivity. Qed.

Example isoformat_2024_leap :
  Fmt.isoformat 1709251199000001 = "2024-02-29T23:59:59.000001"%string.
Proof. vm_compute. reflexivity. Qed.

Example percent2_36 : Fmt.percent2 (36 # 100) = "36.00%"%string.
Proof. vm_compute. reflexivity. Qed.

Example percent2_tie : Fmt.percent2 (1 # 32) = "3.12%"%string.
Proof. vm_compute. reflexivity. Qed.

(** ** Data model *)

(** [@dataclass AgentPerformance] *)
Module AgentPerformance.
Record t := mk {
  agent_name : string;
  accuracy : Q;
  sharpe_ratio : Q;
  total_return : Q;
  max_drawdown : Q;
  win_rate : Q;
  confidence : Q;
  response_time : Q;
  regime : string;
  timestamp : Z }.
End AgentPerformance.

(** [@dataclass RotationDecision] *)
Module RotationDecision.
Record t := mk {
  decision_id : string;
  from_agent : string;
  to_agent : string;
  reason : string;
  confidence : Q;
  expected_improvement : Q;
  regime : string;
  timestamp : Z }.
End RotationDecision.

(** The dictionaries built by the ranking functions.  The key ['rank'] is
    absent until the enumeration after the sort writes it. *)
Module Ranking.
Record t := mk {
  agent_name : string;
  rank : option Z;
  composite_score : Q;
  accuracy : Q;
  sharpe_ratio : Q;
  total_return : Q;
  max_drawdown : Q;
  win_rate : Q;
  confidence : Q;
  response_time : Q }.

Definition set_rank (i : Z) (r : t) : t :=
  mk (agent_name r) (Some i) (composite_score r) (accuracy r) (sharpe_ratio r)
     (total_return r) (max_drawdown r) (win_rate r) (confidence r)
     (response_time r).
End Ranking.

(** The dictionary returned by the regime analysis. *)
Module RegimeAnalysis.
Record t := mk {
  regime : string;
  confidence : Q;
  volatility : option Q;          (* [None] is NaN *)
  trend_strength : Q;
  volume_ratio : Q;
  trend_direction : string;
  rsi : Q;
  macd : Q;
  bollinger_position : Q;
  timestamp : Z }.
End RegimeAnalysis.

(** *** Rows of the tables the service reads *)

(** [agent_signals]; a NULL column is [None]. *)
Module Signal.
Record t := mk {
  agent_name : string;
  confidence : option Q;
  predicted_direction : option string;
  actual_direction : option string;
  timestamp : Z }.
End Signal.

(** [meta_agent_performance] *)
Module PerfRow.
Record t := mk {
  agent_name : string;
  accuracy : Q;
  sharpe_ratio : Q;
  total_return : Q;
  max_drawdown : Q;
  win_rate : Q;
  confidence : Q;
  response_time : Q;
  regime : string;
  created_at : Z }.
End PerfRow.

(** [meta_regime_analysis] (the columns the service reads back) *)
Module RegimeRow.
Record t := mk {
  regime : string;
  confidence : Q;
  created_at : Z }.
End RegimeRow.

(** [meta_agent_rankings] (the columns the service reads back) *)
Module RankingRow.
Record t := mk {
  agent_name : string;
  regime : string;
  rank : Z;
  composite_score : Q;
  accuracy : Q;
  created_at : Z }.
End RankingRow.

(** [meta_rotation_decisions] *)
Module RotationRow.
Record t := mk {
  decision_id : string;
  from_agent : string;
  to_agent : string;
  reason : string;
  confidence : Q;
  expected_improvement : Q;
  regime : string;
  created_at : Z }.
End RotationRow.

Record Store := {
  agent_signals : list Signal.t;
  meta_agent_performance : list PerfRow.t;
  meta_regime_analysis : list RegimeRow.t;
  meta_agent_rankings : list RankingRow.t;
  meta_rotation_decisions : list RotationRow.t }.

(** One row of the price history: the two columns the service reads. *)
Record Bar := { Close : Q; Volume : Q }.

(** ** The world and the monad of the service's coroutines *)

Inductive Outcome (A : Type) : Type :=
| Ok (a : A)
| Raised (e : string).
Arguments Ok {A} a.
Arguments Raised {A} e.

Record World := {
  random_tape : nat -> Q;          (* successive values of [random.random()] *)
  random_pos : nat;
  clock_tape : nat -> Z;           (* successive readings of the clock *)
  clock_pos : nat;
  spy_history : Outcome (list Bar);  (* [yf.Ticker('SPY').history(...)] *)
  db : Outcome Store               (* what a connection of the pool sees *)
}.

Definition M (A : Type) : Type := World -> Outcome A * World.

Definition ret {A} (a : A) : M A := fun w => (Ok a, w).

Definition raise {A} (e : string) : M A := fun w => (Raised e, w).

Definition bind {A B} (c : M A) (k : A -> M B) : M B :=
  fun w => match c w with
           | (Ok a, w') => k a w'
           | (Raised e, w') => (Raised e, w')
           end.

(** [try: body  except Exception as e: handler] *)
Definition try_except {A} (body : M A) (handler : string -> M A) : M A :=
  fun w => match body w with
           | (Ok a, w') => (Ok a, w')
           | (Raised e, w') => handler e w'
           end.

Declare Scope svc_scope.
Delimit Scope svc_scope with svc.
Notation "x <- c ;; k" := (bind c (fun x => k))
  (at level 61, c at next level, right associativity) : svc_scope.
Local Open Scope svc_scope.

(** [random.random()] *)
Definition random : M Q := fun w =>
  (Ok (random_tape w (random_pos w)),
   {| random_tape := random_tape w; random_pos := S (random_pos w);
      clock_tape := clock_tape w; clock_pos := clock_pos w;
      spy_history := spy_history w; db := db w |}).

(** [random.uniform(a, b)] is [a + (b - a) * random()]. *)
Definition uniform (a b : Q) : M Q :=
  u <- random ;; ret (a + (b - a) * u).

(** [datetime.now()], and [NOW()] on the database side. *)
Definition now : M Z := fun w =>
  (Ok (clock_tape w (clock_pos w)),
   {| random_tape := random_tape w; random_pos := random_pos w;
      clock_tape := clock_tape w; clock_pos := S (clock_pos w);
      spy_history := spy_history w; db := db w |}).

(** [ticker.history(period="30d", interval="1d")] *)
Definition history : M (list Bar) := fun w => (spy_history w, w).

(** [async with self.db_pool.acquire() as conn] followed by a read. *)
Definition acquire : M Store := fun w => (db w, w).

(** [float(x)] on a nullable column raises [TypeError] on NULL. *)
Definition float (x : option Q) : Outcome Q :=
  match x with
  | Some q => Ok q
  | None => Raised "TypeError"
  end.

Definition lift {A} (o : Outcome A) : M A := fun w => (o, w).

(** The random tape holds values of [random.random()]: all in [0, 1). *)
Definition unit_tape (w : World) : Prop :=
  forall n, 0 <= random_tape w n /\ random_tape w n < 1.

(** ** Regime classifier *)

Section Regime.

(** The floating-point square root ([np.sqrt], and the one inside
    [Series.std]); everything else of the indicators is rational. *)
Variable sqrt : Q -> Q.

(** [Series.pct_change().dropna()] *)
Fixpoint pct_change (closes : list Q) : list Q :=
  match closes with
  | a :: (b :: _) as rest => (b / a - 1) :: pct_change rest
  | _ => []
  end.

(** [Series.std()]: the sample standard deviation, NaN below two values. *)
Definition std (xs : list Q) : option Q :=
  match xs with
  | [] | [_] => None
  | _ => let m := Py.mean xs in
         Some (sqrt (Py.sum (map (fun x => (x - m) * (x - m)) xs)
                     / (Py.len xs - 1)))
  end.

Definition volatility_of (hist : list Bar) : option Q :=
  option_map (fun s => s * sqrt 252) (std (pct_change (map Close hist))).

(** [hist['Close'].iloc[-1] / hist['Close'].iloc[0] - 1] *)
Definition trend_of (hist : list Bar) : Q :=
  last (map Close hist) 0 / hd 0 (map Close hist) - 1.

(** A comparison with NaN is false. *)
Definition nan_gtb (x : option Q) (c : Q) : bool :=
  match x with
  | Some v => Py.gtb v c
  | None => false
  end.

(** The [if]/[elif] chain of [_detect_market_regime]. *)
Definition regime_of (volatility : option Q) (trend : Q) : string :=
  if nan_gtb volatility 0.25 then "volatile"
  else if Py.gtb trend 0.05 then "bull"
  else if Py.ltb trend (-0.05) then "bear"
  else if Py.ltb (Qabs trend) 0.02 then "neutral"
  else "trending".

Definition _detect_market_regime : M string :=
  try_except
    (hist <- history ;;
     match hist with
     | _ :: _ => ret (regime_of (volatility_of hist) (trend_of hist))
     | [] => ret "neutral"%string
     end)
    (fun _ => ret "neutral"%string).

(** The [if]/[elif] chain of [_analyze_market_regime], which also sets the
    confidence. *)
Definition regime_and_confidence (volatility : option Q) (trend : Q)
  : string * Q :=
  if nan_gtb volatility 0.25 then
    ("volatile"%string,
     match volatility with
     | Some v => Py.min 0.95 (v * 2)
     | None => 0.95            (* not reached: NaN > 0.25 is false *)
     end)
  else if Py.gtb trend 0.05 then
    ("bull"%string, Py.min 0.95 (Qabs trend * 10))
  else if Py.ltb trend (-0.05) then
    ("bear"%string, Py.min 0.95 (Qabs trend * 10))
  else if Py.ltb (Qabs trend) 0.02 then
    ("neutral"%string, 0.8)
  else
    ("trending"%string, Py.min 0.95 (Qabs trend * 8)).

Definition _get_fallback_regime_analysis : M RegimeAnalysis.t :=
  t <- now ;;
  ret (RegimeAnalysis.mk "neutral" 0.6 (Some 0.15) 0.02 1.0 "neutral"
         50.0 0.0 0.5 t).

Definition _analyze_market_regime : M RegimeAnalysis.t :=
  try_except
    (hist <- history ;;
     match hist with
     | _ :: _ =>
         let volatility := volatility_of hist in
         let trend := trend_of hist in
         let avg_volume := Py.mean (map Volume hist) in
         let recent_volume := Py.mean (Py.tail 5 (map Volume hist)) in
         let volume_ratio :=
           if Py.gtb avg_volume 0 then recent_volume / avg_volume else 1.0 in
         let rc := regime_and_confidence volatility trend in
         rsi <- uniform 30 70 ;;
         macd <- uniform (-0.02) 0.02 ;;
         bollinger <- uniform 0.2 0.8 ;;
         t <- now ;;
         ret (RegimeAnalysis.mk (fst rc) (snd rc) volatility (Qabs trend)
                volume_ratio (if Py.gtb trend 0 then "up" else "down")
                rsi macd bollinger t)
     | [] => _get_fallback_regime_analysis
     end)
    (fun _ => _get_fallback_regime_analysis).

End Regime.

(** A rational square root to six decimals, for running the classifier on
    concrete price series. *)
Definition sqrt6 (q : Q) : Q :=
  Z.sqrt (Qnum q * 1000000000000 / Z.pos (Qden q)) # 1000000.

Definition run {A} (c : M A) (w : World) : Outcome A := fst (c w).

Definition quiet_world (hist : Outcome (list Bar)) (d : Outcome Store) : World :=
  {| random_tape := fun _ => 1 # 2; random_pos := 0;
     clock_tape := fun n => (1793785445000000 + Z.of_nat n)%Z; clock_pos := 0;
     spy_history := hist; db := d |}.

Definition bars (closes : list Q) : list Bar :=
  map (fun c => {| Close := c; Volume := 1000 |}) closes.

Definition choppy : list Bar := bars [100; 110; 99; 100.5].
Definition choppy_volatility : Q :=
  Eval vm_compute in
    match volatility_of sqrt6 choppy with Some v => v | None => 0 end.

Example detect_choppy :
  run (_detect_market_regime sqrt6) (quiet_world (Ok choppy) (Raised "down"))
  = Ok "volatile"%string.
Proof. vm_compute. reflexivity. Qed.

Example detect_rally :
  run (_detect_market_regime sqrt6)
      (quiet_world (Ok (bars [100; 101; 102; 103; 104; 105; 106])) (Raised "down"))
  = Ok "bull"%string.
Proof. vm_compute. reflexivity. Qed.

Example detect_provider_failure :
  run (_detect_market_regime sqrt6)
      (quiet_world (Raised "HTTPError") (Raised "down"))
  = Ok "neutral"%string.
Proof. reflexivity. Qed.

(** *** The precedence of the classification *)

Lemma regime_and_confidence_regime volatility trend :
  fst (regime_and_confidence volatility trend) = regime_of volatility trend.
Proof.
  unfold regime_and_confidence, regime_of.
  destruct (nan_gtb volatility 0.25); [reflexivity |].
  destruct (Py.gtb trend 0.05); [reflexivity |].
  destruct (Py.ltb trend (-0.05)); [reflexivity |].
  destruct (Py.ltb (Qabs trend) 0.02); reflexivity.
Qed.

Lemma detect_run sqrt w b hist :
  spy_history w = Ok (b :: hist) ->
  run (_detect_market_regime sqrt) w
  = Ok (regime_of (volatility_of sqrt (b :: hist)) (trend_of (b :: hist))).
Proof.
  intros H. unfold run, _detect_market_regime, try_except, bind, history.
  rewrite H. reflexivity.
Qed.

Lemma analyze_run sqrt w b hist :
  spy_history w = Ok (b :: hist) ->
  exists a,
    run (_analyze_market_regime sqrt) w = Ok a /\
    RegimeAnalysis.regime a
    = regime_of (volatility_of sqrt (b :: hist)) (trend_of (b :: hist)) /\
    RegimeAnalysis.confidence a
    = snd (regime_and_confidence (volatility_of sqrt (b :: hist))
             (trend_of (b :: hist))).
Proof.
  intros H. unfold run, _analyze_market_regime, try_except, bind, history.
  rewrite H. cbn -[regime_and_confidence volatility_of trend_of Py.mean Py.tail].
  eexists. split; [reflexivity |]. cbn [RegimeAnalysis.regime RegimeAnalysis.confidence].
  split; [apply regime_and_confidence_regime | reflexivity].
Qed.

Lemma regime_of_cases (v t : Q) :
  (0.25 < v -> regime_of (Some v) t = "volatile"%string) /\
  (~ 0.25 < v -> 0.05 < t -> regime_of (Some v) t = "bull"%string) /\
  (~ 0.25 < v -> ~ 0.05 < t -> t < -0.05 ->
   regime_of (Some v) t = "bear"%string) /\
  (~ 0.25 < v -> ~ 0.05 < t -> ~ t < -0.05 -> Qabs t < 0.02 ->
   regime_of (Some v) t = "neutral"%string) /\
  (~ 0.25 < v -> ~ 0.05 < t -> ~ t < -0.05 -> ~ Qabs t < 0.02 ->
   regime_of (Some v) t = "trending"%string).
Proof.
  unfold regime_of, nan_gtb.
  destruct (Py.gtb v 0.25) eqn:Ev;
    [apply Py.gtb_gt in Ev | apply Py.gtb_le, Qle_not_lt in Ev].
  { repeat split; intros; solve [reflexivity | contradiction]. }
  destruct (Py.gtb t 0.05) eqn:Eb;
    [apply Py.gtb_gt in Eb | apply Py.gtb_le, Qle_not_lt in Eb].
  { repeat split; intros; solve [reflexivity | contradiction]. }
  destruct (Py.ltb t (-0.05)) eqn:Er;
    [apply Py.ltb_lt in Er | apply Py.ltb_ge, Qle_not_lt in Er].
  { repeat split; intros; solve [reflexivity | contradiction]. }
  destruct (Py.ltb (Qabs t) 0.02) eqn:En;
    [apply Py.ltb_lt in En | apply Py.ltb_ge, Qle_not_lt in En].
  { repeat split; intros; solve [reflexivity | contradiction]. }
  repeat split; intros; solve [reflexivity | contradiction].
Qed.

(** A NaN volatility never classifies as volatile: the chain goes on to the
    trend tests. *)
Lemma regime_of_nan t : regime_of None t <> "volatile"%string.
Proof.
  unfold regime_of, nan_gtb.
  destruct (Py.gtb t 0.05); [discriminate |].
  destruct (Py.ltb t (-0.05)); [discriminate |].
  destruct (Py.ltb (Qabs t) 0.02); discriminate.
Qed.

(** C1. For every non-empty price series whose annualized volatility is [v]
    and whose total-period trend is [t], the regime analysis and the regime
    detection both return the label chosen by the first matching test:
    [v > 0.25] gives volatile whatever the trend; otherwise [t > 0.05] gives
    bull; otherwise [t < -0.05] gives bear; otherwise [|t| < 0.02] gives
    neutral; otherwise trending.  Volatility 0.30 with trend 0.01 is
    volatile. *)
Theorem regime_precedence :
  forall (sqrt : Q -> Q) (w : World) (hist : list Bar) (v t : Q),
    spy_history w = Ok hist -> hist <> [] ->
    volatility_of sqrt hist = Some v -> trend_of hist = t ->
    exists a,
      run (_analyze_market_regime sqrt) w = Ok a /\
      run (_detect_market_regime sqrt) w = Ok (RegimeAnalysis.regime a) /\
      (0.25 < v -> RegimeAnalysis.regime a = "volatile"%string) /\
      (~ 0.25 < v -> 0.05 < t -> RegimeAnalysis.regime a = "bull"%string) /\
      (~ 0.25 < v -> ~ 0.05 < t -> t < -0.05 ->
       RegimeAnalysis.regime a = "bear"%string) /\
      (~ 0.25 < v -> ~ 0.05 < t -> ~ t < -0.05 -> Qabs t < 0.02 ->
       RegimeAnalysis.regime a = "neutral"%string) /\
      (~ 0.25 < v -> ~ 0.05 < t -> ~ t < -0.05 -> ~ Qabs t < 0.02 ->
       RegimeAnalysis.regime a = "trending"%string) /\
      regime_of (Some 0.30) 0.01 = "volatile"%string.
Proof.
  intros sqrt w hist v t Hw Hne Hv Ht.
  destruct hist as [| b hist]; [contradiction |].
  destruct (analyze_run sqrt w b hist Hw) as (a & Ha & Hr & _).
  exists a. rewrite Hr, (detect_run sqrt w b hist Hw), Hv, Ht.
  split; [exact Ha |]. split; [reflexivity |].
  destruct (regime_of_cases v t) as (H1 & H2 & H3 & H4 & H5).
  repeat split; assumption || reflexivity.
Qed.

Lemma regime_precedence_witness :
  exists a,
    run (_analyze_market_regime sqrt6)
        (quiet_world (Ok choppy) (Raised "down")) = Ok a /\
    RegimeAnalysis.regime a = "volatile"%string.
Proof.
  destruct (regime_precedence sqrt6 (quiet_world (Ok choppy) (Raised "down"))
              choppy choppy_volatility (trend_of choppy))
    as (a & Ha & _ & Hvol & _).
  - reflexivity.
  - discriminate.
  - vm_compute. reflexivity.
  - reflexivity.
  - exists a. split; [exact Ha |]. apply Hvol. vm_compute. reflexivity.
Defined.

(** ** Stable sorting

    [list.sort] and the service's [ORDER BY] clauses are modelled by one
    stable insertion sort.  [before x y] says that [x] may stand in front of
    [y]; an element is inserted in front of the first element it may stand
    in front of, so elements that compare equal keep their input order.
    (SQL leaves the order of rows with equal sort keys open; the model
    resolves it by storage order.) *)

Section StableSort.

Context {A : Type}.
Variable before : A -> A -> bool.

Fixpoint insert (x : A) (l : list A) : list A :=
  match l with
  | [] => [x]
  | y :: l' => if before x y then x :: l else y :: insert x l'
  end.

Definition stable_sort (l : list A) : list A := fold_right insert [] l.

Lemma insert_perm x l : Permutation (x :: l) (insert x l).
Proof.
  induction l as [| y l IH]; simpl; [reflexivity |].
  destruct (before x y); [reflexivity |].
  rewrite perm_swap. now constructor.
Qed.

Lemma stable_sort_perm l : Permutation l (stable_sort l).
Proof.
  induction l as [| x l IH]; simpl; [constructor |].
  rewrite <- insert_perm. now constructor.
Qed.

Lemma stable_sort_length l : length (stable_sort l) = length l.
Proof. symmetry. apply Permutation_length, stable_sort_perm. Qed.

Lemma stable_sort_nil l : stable_sort l = [] -> l = [].
Proof.
  intros H. apply length_zero_iff_nil.
  rewrite <- stable_sort_length, H. reflexivity.
Qed.

Hypothesis before_total : forall x y, before x y = false -> before y x = true.
Hypothesis before_trans :
  forall x y z, before x y = true -> before y z = true -> before x z = true.

Lemma insert_sorted x l :
  StronglySorted (fun a b => before a b = true) l ->
  StronglySorted (fun a b => before a b = true) (insert x l).
Proof.
  induction 1 as [| y l Hs IH Hy]; simpl.
  - repeat constructor.
  - destruct (before x y) eqn:E.
    + constructor; [now constructor |].
      constructor; [exact E |].
      eapply Forall_impl; [| exact Hy]. intros z Hz. eauto.
    + constructor; [exact IH |].
      eapply Permutation_Forall; [apply insert_perm |].
      constructor; [now apply before_total | exact Hy].
Qed.

Lemma stable_sort_sorted l :
  StronglySorted (fun a b => before a b = true) (stable_sort l).
Proof.
  induction l as [| x l IH]; simpl; [constructor | now apply insert_sorted].
Qed.

End StableSort.

(** Stability: a class of elements that no element of the class has to
    move behind (the elements with one value of the sort key) comes out in
    the order it went in. *)
Section Stability.

Context {A : Type}.
Variable before : A -> A -> bool.
Variable cls : A -> bool.
Hypothesis cls_before :
  forall x y, cls x = true -> cls y = true -> before x y = true.

Lemma insert_filter_in x l :
  cls x = true -> filter cls (insert before x l) = x :: filter cls l.
Proof.
  intros Hx. induction l as [| y l IH]; simpl.
  - now rewrite Hx.
  - destruct (before x y) eqn:E; simpl.
    + now rewrite Hx.
    + destruct (cls y) eqn:Ey.
      * rewrite (cls_before x y Hx Ey) in E. discriminate.
      * exact IH.
Qed.

Lemma insert_filter_out x l :
  cls x = false -> filter cls (insert before x l) = filter cls l.
Proof.
  intros Hx. induction l as [| y l IH]; simpl.
  - now rewrite Hx.
  - destruct (before x y); simpl.
    + now rewrite Hx.
    + now rewrite IH.
Qed.

Lemma stable_sort_stable l :
  filter cls (stable_sort before l) = filter cls l.
Proof.
  induction l as [| x l IH]; simpl; [reflexivity |].
  destruct (cls x) eqn:Hx.
  - rewrite insert_filter_in by exact Hx. now rewrite IH.
  - rewrite insert_filter_out by exact Hx. exact IH.
Qed.

End Stability.

(** ** Performance scorer *)

Definition microseconds_per_hour : Z := 3600 * 1000000.
Definition interval_24_hours : Z := 24 * microseconds_per_hour.
Definition interval_7_days : Z := 7 * interval_24_hours.

(** [SELECT confidence, predicted_direction, actual_direction, timestamp
     FROM agent_signals
     WHERE agent_name = $1 AND timestamp >= NOW() - INTERVAL '7 days'
     ORDER BY timestamp DESC LIMIT 100] *)
Definition select_predictions (s : Store) (agent_name : string) (db_now : Z)
  : list Signal.t :=
  firstn 100
    (stable_sort
       (fun x y => (Signal.timestamp y <=? Signal.timestamp x)%Z)
       (filter
          (fun p => String.eqb (Signal.agent_name p) agent_name
                    && (db_now - interval_7_days <=? Signal.timestamp p)%Z)
          (agent_signals s))).

Definition fetch_predictions (agent_name : string) : M (list Signal.t) :=
  s <- acquire ;;
  db_now <- now ;;
  ret (select_predictions s agent_name db_now).

(** [p['predicted_direction'] == p['actual_direction']] *)
Definition direction_eqb (a b : option string) : bool :=
  match a, b with
  | Some x, Some y => String.eqb x y
  | None, None => true
  | _, _ => false
  end.

(** [[float(p['confidence']) for p in predictions]] *)
Fixpoint confidences (predictions : list Signal.t) : Outcome (list Q) :=
  match predictions with
  | [] => Ok []
  | p :: rest =>
      match float (Signal.confidence p) with
      | Raised e => Raised e
      | Ok c =>
          match confidences rest with
          | Raised e => Raised e
          | Ok cs => Ok (c :: cs)
          end
      end
  end.

(** The metrics both branches of the scorer hand to the constructor. *)
Record Metrics := {
  m_accuracy : Q;
  m_sharpe_ratio : Q;
  m_total_return : Q;
  m_max_drawdown : Q;
  m_win_rate : Q;
  m_avg_confidence : Q;
  m_response_time : Q }.

(** The branch taken when [predictions] is not empty. *)
Definition metrics_from_predictions (predictions : list Signal.t) : M Metrics :=
  let total_predictions := Py.len predictions in
  let correct_predictions :=
    Py.len (filter (fun p => direction_eqb (Signal.predicted_direction p)
                                           (Signal.actual_direction p))
                   predictions) in
  let accuracy :=
    if Py.gtb total_predictions 0
    then correct_predictions / total_predictions else 0.5 in
  cs <- lift (confidences predictions) ;;
  let avg_confidence := Py.mean cs in
  let sharpe_ratio := Py.max 0 ((accuracy - 0.5) * 4) in
  let total_return := (accuracy - 0.5) * 0.2 in
  let max_drawdown := Py.max 0 (0.1 - accuracy * 0.2) in
  let win_rate := accuracy in
  response_time <- uniform 0.1 2.0 ;;
  ret {| m_accuracy := accuracy; m_sharpe_ratio := sharpe_ratio;
         m_total_return := total_return; m_max_drawdown := max_drawdown;
         m_win_rate := win_rate; m_avg_confidence := avg_confidence;
         m_response_time := response_time |}.

(** The branch taken when there are no predictions. *)
Definition fallback_metrics : M Metrics :=
  base_performance <- uniform 0.4 0.7 ;;
  let accuracy := base_performance in
  let sharpe_ratio := (base_performance - 0.5) * 2 in
  let total_return := (base_performance - 0.5) * 0.15 in
  let max_drawdown := 0.1 - base_performance * 0.15 in
  let win_rate := base_performance in
  let avg_confidence := base_performance in
  response_time <- uniform 0.5 3.0 ;;
  ret {| m_accuracy := accuracy; m_sharpe_ratio := sharpe_ratio;
         m_total_return := total_return; m_max_drawdown := max_drawdown;
         m_win_rate := win_rate; m_avg_confidence := avg_confidence;
         m_response_time := response_time |}.

(** The body of the [try] of [_calculate_agent_performance]. *)
Definition performance_body (agent_name regime : string)
  : M AgentPerformance.t :=
  predictions <- fetch_predictions agent_name ;;
  m <- match predictions with
       | _ :: _ => metrics_from_predictions predictions
       | [] => fallback_metrics
       end ;;
  t <- now ;;
  ret (AgentPerformance.mk agent_name (m_accuracy m) (m_sharpe_ratio m)
         (m_total_return m) (m_max_drawdown m) (m_win_rate m)
         (m_avg_confidence m) (m_response_time m) regime t).

(** The record built by the [except] clause. *)
Definition neutral_performance (agent_name regime : string) (t : Z)
  : AgentPerformance.t :=
  AgentPerformance.mk agent_name 0.5 0.0 0.0 0.1 0.5 0.5 1.0 regime t.

Definition _calculate_agent_performance (agent_name regime : string)
  : M AgentPerformance.t :=
  try_except
    (performance_body agent_name regime)
    (fun _ => t <- now ;; ret (neutral_performance agent_name regime t)).

(** *** Concrete runs *)

Definition empty_store : Store :=
  {| agent_signals := []; meta_agent_performance := [];
     meta_regime_analysis := []; meta_agent_rankings := [];
     meta_rotation_decisions := [] |}.

(** A world whose [random()] always returns [u]. *)
Definition world_of (u : Q) (d : Outcome Store) : World :=
  {| random_tape := fun _ => u; random_pos := 0;
     clock_tape := fun n => (1793785445000000 + Z.of_nat n)%Z; clock_pos := 0;
     spy_history := Raised "offline"; db := d |}.

Definition signal (agent : string) (c : option Q) (p a : string) (t : Z)
  : Signal.t :=
  Signal.mk agent c (Some p) (Some a) t.

Definition three_signals : Store :=
  {| agent_signals :=
       [ signal "RiskAgent" (Some 0.9) "up" "up" 1793785000000000;
         signal "RiskAgent" (Some 0.7) "up" "down" 1793785100000000;
         signal "RiskAgent" (Some 0.8) "down" "down" 1793785200000000;
         signal "RiskAgent" (Some 0.8) "down" "down" 1000000000000000;
         signal "RLStrategyAgent" None "down" "down" 1793785200000000 ];
     meta_agent_performance := []; meta_regime_analysis := [];
     meta_agent_rankings := []; meta_rotation_decisions := [] |}.

Example scored_from_history :
  exists p,
    run (_calculate_agent_performance "RiskAgent" "bull")
        (world_of (1 # 2) (Ok three_signals)) = Ok p /\
    AgentPerformance.accuracy p == 2 # 3 /\
    AgentPerformance.sharpe_ratio p == 2 # 3 /\
    AgentPerformance.total_return p == 1 # 30 /\
    AgentPerformance.max_drawdown p == 0 /\
    AgentPerformance.confidence p == 0.8.
Proof. eexists. split; [vm_compute; reflexivity |]. vm_compute. tauto. Qed.

Example scored_null_confidence :
  run (_calculate_agent_performance "RLStrategyAgent" "bull")
      (world_of (1 # 2) (Ok three_signals))
  = Ok (neutral_performance "RLStrategyAgent" "bull" 1793785445000001).
Proof. vm_compute. reflexivity. Qed.

(** *** The fallback path *)

Lemma uniform_run a b w :
  uniform a b w
  = (Ok (a + (b - a) * random_tape w (random_pos w)), snd (random w)).
Proof. reflexivity. Qed.

Lemma uniform_bounds a b u :
  a <= b -> 0 <= u -> u < 1 ->
  a <= a + (b - a) * u /\ a + (b - a) * u <= b.
Proof. intros Hab H0 H1. split; nra. Qed.

Lemma fallback_run agent regime w s :
  db w = Ok s ->
  select_predictions s agent (clock_tape w (clock_pos w)) = [] ->
  exists t,
    run (_calculate_agent_performance agent regime) w
    = Ok (let base := 0.4 + (0.7 - 0.4) * random_tape w (random_pos w) in
          AgentPerformance.mk agent base ((base - 0.5) * 2)
            ((base - 0.5) * 0.15) (0.1 - base * 0.15) base base
            (0.5 + (3.0 - 0.5) * random_tape w (S (random_pos w)))
            regime t).
Proof.
  intros Hdb Hsel.
  unfold run, _calculate_agent_performance, try_except, performance_body,
    fetch_predictions, bind, acquire.
  rewrite Hdb. cbn [now ret fst snd]. rewrite Hsel.
  cbn. eexists. reflexivity.
Qed.

(** The fallback path does not use the formulas of the primary path.  One
    agent without prediction history, the
    synthetic base value 0.6: the record has risk-adjusted-return score 0.2
    where the primary-path formula gives 0.4, cumulative return 0.015 where
    it gives 0.02, and max drawdown 0.01 where it gives 0. *)
Lemma fallback_not_primary_formulas :
  exists p,
    run (_calculate_agent_performance "RiskAgent" "bull")
        (world_of (2 # 3) (Ok empty_store)) = Ok p /\
    AgentPerformance.win_rate p == 0.6 /\
    ~ AgentPerformance.sharpe_ratio p
      == Py.max 0 ((AgentPerformance.win_rate p - 0.5) * 4) /\
    ~ AgentPerformance.total_return p
      == (AgentPerformance.win_rate p - 0.5) * 0.2 /\
    ~ AgentPerformance.max_drawdown p
      == Py.max 0 (0.1 - AgentPerformance.win_rate p * 0.2).
Proof.
  eexists. split; [vm_compute; reflexivity |].
  vm_compute. repeat split; discriminate.
Qed.

(** X1.  When an agent has no prediction history, every metric of
    its record derives from one synthetic base value drawn in [0.4, 0.7],
    by the fallback path's own formulas: accuracy, win rate and confidence
    are the base value, the risk-adjusted-return score is (base - 0.5) * 2,
    the cumulative return (base - 0.5) * 0.15 and the max drawdown
    0.1 - base * 0.15. *)
Theorem fallback_metrics_formulas :
  forall (agent regime : string) (w : World) (s : Store),
    unit_tape w -> db w = Ok s ->
    select_predictions s agent (clock_tape w (clock_pos w)) = [] ->
    exists (p : AgentPerformance.t) (base : Q),
      run (_calculate_agent_performance agent regime) w = Ok p /\
      0.4 <= base /\ base <= 0.7 /\
      AgentPerformance.accuracy p = base /\
      AgentPerformance.sharpe_ratio p = (base - 0.5) * 2 /\
      AgentPerformance.total_return p = (base - 0.5) * 0.15 /\
      AgentPerformance.max_drawdown p = 0.1 - base * 0.15 /\
      AgentPerformance.win_rate p = base /\
      AgentPerformance.confidence p = base.
Proof.
  intros agent regime w s Htape Hdb Hsel.
  destruct (fallback_run agent regime w s Hdb Hsel) as [t Hrun].
  eexists. exists (0.4 + (0.7 - 0.4) * random_tape w (random_pos w)).
  split; [exact Hrun |].
  destruct (Htape (random_pos w)) as [H0 H1].
  destruct (uniform_bounds 0.4 0.7 _ ltac:(discriminate) H0 H1) as [Hlo Hhi].
  cbn. repeat split; assumption.
Qed.

Lemma fallback_metrics_formulas_witness :
  exists (p : AgentPerformance.t) (base : Q),
    run (_calculate_agent_performance "RiskAgent" "bull")
        (world_of (2 # 3) (Ok empty_store)) = Ok p /\
    0.4 <= base /\ base <= 0.7 /\
    AgentPerformance.accuracy p = base /\
    AgentPerformance.sharpe_ratio p = (base - 0.5) * 2 /\
    AgentPerformance.total_return p = (base - 0.5) * 0.15 /\
    AgentPerformance.max_drawdown p = 0.1 - base * 0.15 /\
    AgentPerformance.win_rate p = base /\
    AgentPerformance.confidence p = base.
Proof.
  apply (fallback_metrics_formulas "RiskAgent" "bull"
           (world_of (2 # 3) (Ok empty_store)) empty_store).
  - intros n. split; [discriminate | reflexivity].
  - reflexivity.
  - reflexivity.
Defined.

(** *** Failures *)

Lemma performance_body_db_down agent regime w e :
  db w = Raised e -> run (performance_body agent regime) w = Raised e.
Proof.
  intros H. unfold run, performance_body, fetch_predictions, bind, acquire.
  now rewrite H.
Qed.

(** X2.  The scorer always returns a record for the agent and regime it was
    given, and whenever the computation of the metrics fails (the
    prediction-history fetch raises, for one) the record is the neutral
    default: accuracy 0.5, risk-adjusted-return score 0, cumulative return
    0, win rate 0.5. *)
Theorem performance_failure_neutral :
  forall (agent regime : string) (w : World),
    exists p : AgentPerformance.t,
      run (_calculate_agent_performance agent regime) w = Ok p /\
      AgentPerformance.agent_name p = agent /\
      AgentPerformance.regime p = regime /\
      (forall e, run (performance_body agent regime) w = Raised e ->
         AgentPerformance.accuracy p == 0.5 /\
         AgentPerformance.sharpe_ratio p == 0 /\
         AgentPerformance.total_return p == 0 /\
         AgentPerformance.win_rate p == 0.5 /\
         AgentPerformance.max_drawdown p == 0.1 /\
         AgentPerformance.confidence p == 0.5 /\
         AgentPerformance.response_time p == 1) /\
      (forall e, db w = Raised e ->
         run (performance_body agent regime) w = Raised e).
Proof.
  intros agent regime w.
  unfold run, _calculate_agent_performance, try_except.
  destruct (performance_body agent regime w) as [[p | e] w'] eqn:Hbody.
  - exists p. split; [reflexivity |].
    assert (Hp : AgentPerformance.agent_name p = agent /\
                 AgentPerformance.regime p = regime).
    { revert Hbody. unfold performance_body, bind.
      destruct (fetch_predictions agent w) as [[ps | e1] w1]; [| discriminate].
      destruct (match ps with
                | [] => fallback_metrics
                | _ :: _ => metrics_from_predictions ps
                end w1) as [[m | e2] w2]; [| discriminate].
      cbn. intros H. injection H as <- _. split; reflexivity. }
    destruct Hp as [Hn Hr].
    split; [exact Hn |]. split; [exact Hr |]. split.
    + intros e0 He. cbn in He. discriminate.
    + intros e0 He.
      pose proof (performance_body_db_down agent regime w e0 He) as Hd.
      unfold run in Hd. rewrite Hbody in Hd. discriminate.
  - eexists. split; [reflexivity |]. cbn.
    split; [reflexivity |]. split; [reflexivity |]. split.
    + intros _ _. repeat split; reflexivity.
    + intros e0 H0.
      pose proof (performance_body_db_down agent regime w e0 H0) as Hd.
      unfold run in Hd. rewrite Hbody in Hd. exact Hd.
Qed.

Lemma performance_failure_neutral_witness :
  exists p : AgentPerformance.t,
    run (_calculate_agent_performance "RiskAgent" "bear")
        (world_of (1 # 2) (Raised "ConnectionRefusedError")) = Ok p /\
    AgentPerformance.accuracy p == 0.5 /\
    AgentPerformance.sharpe_ratio p == 0 /\
    AgentPerformance.win_rate p == 0.5 /\
    AgentPerformance.regime p = "bear"%string.
Proof.
  destruct (performance_failure_neutral "RiskAgent" "bear"
              (world_of (1 # 2) (Raised "ConnectionRefusedError")))
    as (p & Hrun & _ & Hreg & Hneutral & Hdown).
  exists p. split; [exact Hrun |].
  destruct (Hneutral "ConnectionRefusedError"%string
              (Hdown "ConnectionRefusedError"%string eq_refl))
    as (Ha & Hs & _ & Hw & _).
  repeat split; assumption.
Defined.

(** ** Ranking engine *)

(** [SELECT agent_name, accuracy, sharpe_ratio, total_return, max_drawdown,
            win_rate, confidence, response_time
     FROM meta_agent_performance
     WHERE regime = $1 AND created_at >= NOW() - INTERVAL '24 hours'
     ORDER BY created_at DESC] *)
Definition select_performances (s : Store) (regime : string) (db_now : Z)
  : list PerfRow.t :=
  stable_sort
    (fun x y => (PerfRow.created_at y <=? PerfRow.created_at x)%Z)
    (filter
       (fun p => String.eqb (PerfRow.regime p) regime
                 && (db_now - interval_24_hours <=? PerfRow.created_at p)%Z)
       (meta_agent_performance s)).

(** Float division: a zero divisor raises. *)
Definition divide (a b : Q) : Outcome Q :=
  if Qeq_bool b 0 then Raised "ZeroDivisionError" else Ok (a / b).

(** The weighted composite score of one performance row. *)
Definition composite_score (perf : PerfRow.t) : Outcome Q :=
  match divide 1.0 (1.0 + PerfRow.response_time perf) with
  | Raised e => Raised e
  | Ok latency_term =>
      Ok (PerfRow.accuracy perf * 0.25 +
          PerfRow.sharpe_ratio perf * 0.20 +
          PerfRow.total_return perf * 0.20 +
          PerfRow.win_rate perf * 0.15 +
          PerfRow.confidence perf * 0.10 +
          latency_term * 0.10)
  end.

(** The loop [for perf in performances: ... rankings.append({...})]. *)
Fixpoint score_performances (performances : list PerfRow.t)
  : Outcome (list Ranking.t) :=
  match performances with
  | [] => Ok []
  | perf :: rest =>
      match composite_score perf with
      | Raised e => Raised e
      | Ok score =>
          match score_performances rest with
          | Raised e => Raised e
          | Ok rankings =>
              Ok (Ranking.mk (PerfRow.agent_name perf) None score
                    (PerfRow.accuracy perf) (PerfRow.sharpe_ratio perf)
                    (PerfRow.total_return perf) (PerfRow.max_drawdown perf)
                    (PerfRow.win_rate perf) (PerfRow.confidence perf)
                    (PerfRow.response_time perf) :: rankings)
          end
      end
  end.

(** [rankings.sort(key=lambda x: x['composite_score'], reverse=True)] *)
Definition score_before (x y : Ranking.t) : bool :=
  Qle_bool (Ranking.composite_score y) (Ranking.composite_score x).

Definition sort_by_score (rankings : list Ranking.t) : list Ranking.t :=
  stable_sort score_before rankings.

(** [for i, ranking in enumerate(rankings): ranking['rank'] = i + 1],
    from index [i] on. *)
Fixpoint assign_ranks (i : Z) (rankings : list Ranking.t) : list Ranking.t :=
  match rankings with
  | [] => []
  | ranking :: rest =>
      Ranking.set_rank (i + 1) ranking :: assign_ranks (i + 1) rest
  end.

(** [self.agents] *)
Definition agents : list string :=
  [ "ForecastAgent"; "MomentumAgent"; "VolatilityAgent"; "SentimentAgent";
    "RiskAgent"; "CorrelationAgent"; "StrategyAgent"; "RLStrategyAgent";
    "EventImpactAgent"; "DayForecastAgent" ]%string.

(** The loop [for i, agent in enumerate(self.agents)] of the fallback, from
    index [i] on: two draws for every agent. *)
Fixpoint fallback_entries (i : Z) (roster : list string)
  : M (list Ranking.t) :=
  match roster with
  | [] => ret []
  | agent :: rest =>
      base_score <- uniform 0.4 0.8 ;;
      response_time <- uniform 0.5 2.0 ;;
      rankings <- fallback_entries (i + 1) rest ;;
      ret (Ranking.mk agent (Some (i + 1)%Z) base_score base_score
             ((base_score - 0.5) * 2) ((base_score - 0.5) * 0.15)
             (0.1 - base_score * 0.15) base_score base_score response_time
           :: rankings)
  end.

Definition _get_fallback_rankings (regime : string) : M (list Ranking.t) :=
  rankings <- fallback_entries 0 agents ;;
  ret (assign_ranks 0 (sort_by_score rankings)).

Definition fetch_performances (regime : string) : M (list PerfRow.t) :=
  s <- acquire ;;
  db_now <- now ;;
  ret (select_performances s regime db_now).

Definition _calculate_regime_rankings (regime : string)
  : M (list Ranking.t) :=
  try_except
    (performances <- fetch_performances regime ;;
     match performances with
     | _ :: _ =>
         rankings <- lift (score_performances performances) ;;
         ret (assign_ranks 0 (sort_by_score rankings))
     | [] => _get_fallback_rankings regime
     end)
    (fun _ => _get_fallback_rankings regime).

(** *** Concrete runs *)

Definition perf (agent : string) (accuracy response_time : Q) (t : Z)
  : PerfRow.t :=
  PerfRow.mk agent accuracy (Py.max 0 ((accuracy - 0.5) * 4))
    ((accuracy - 0.5) * 0.2) (Py.max 0 (0.1 - accuracy * 0.2)) accuracy 0.8
    response_time "bull" t.

Definition two_cycles : Store :=
  {| agent_signals := [];
     meta_agent_performance :=
       [ perf "ForecastAgent" 0.5 1 1793785000000000;
         perf "RiskAgent" 0.75 1 1793785000000001;
         perf "ForecastAgent" 0.75 1 1793785060000000;
         perf "RiskAgent" 0.5 1 1793785060000001 ];
     meta_regime_analysis := []; meta_agent_rankings := [];
     meta_rotation_decisions := [] |}.

Definition summary_of (r : Ranking.t) : string * option Z * Q :=
  (Ranking.agent_name r, Ranking.rank r, Qred (Ranking.composite_score r)).

Example ranking_two_cycles :
  match run (_calculate_regime_rankings "bull") (world_of (1 # 2) (Ok two_cycles)) with
  | Ok rankings =>
      map summary_of rankings
      = [ ("ForecastAgent"%string, Some 1%Z, Qred 0.64);
          ("RiskAgent"%string, Some 2%Z, Qred 0.64);
          ("RiskAgent"%string, Some 3%Z, 0.33);
          ("ForecastAgent"%string, Some 4%Z, 0.33) ]
  | Raised _ => False
  end.
Proof. vm_compute. reflexivity. Qed.

Example ranking_fallback_size :
  match run (_calculate_regime_rankings "bear") (world_of (1 # 2) (Ok two_cycles)) with
  | Ok rankings =>
      map (fun r => (Ranking.agent_name r, Ranking.rank r)) rankings
      = combine agents (map Some [1; 2; 3; 4; 5; 6; 7; 8; 9; 10]%Z)
  | Raised _ => False
  end.
Proof. vm_compute. reflexivity. Qed.

(** *** What a ranking is *)

(** An entry without its rank. *)
Definition clear_rank (r : Ranking.t) : Ranking.t :=
  Ranking.mk (Ranking.agent_name r) None (Ranking.composite_score r)
    (Ranking.accuracy r) (Ranking.sharpe_ratio r) (Ranking.total_return r)
    (Ranking.max_drawdown r) (Ranking.win_rate r) (Ranking.confidence r)
    (Ranking.response_time r).

(** Scores never increase along the list. *)
Definition descending (l : list Ranking.t) : Prop :=
  StronglySorted (fun a b => b <= a) (map Ranking.composite_score l).

(** The entries with composite score [k]. *)
Definition with_score (k : Q) (r : Ranking.t) : bool :=
  Qeq_bool (Ranking.composite_score r) k.

(** Entries with equal scores stand in [out] in the order they have in
    [entries]. *)
Definition keeps_input_order (entries out : list Ranking.t) : Prop :=
  forall k, filter (with_score k) (map clear_rank out)
            = filter (with_score k) (map clear_rank entries).

(** The ranks are 1, 2, ..., N. *)
Definition ranks_1_to_N (out : list Ranking.t) : Prop :=
  map Ranking.rank out = map (fun n => Some (Z.of_nat n)) (seq 1 (length out)).

Definition ranked (entries out : list Ranking.t) : Prop :=
  length out = length entries /\
  Permutation (map clear_rank entries) (map clear_rank out) /\
  descending out /\
  keeps_input_order entries out /\
  ranks_1_to_N out.

Lemma StronglySorted_map {A B} (f : A -> B) (R : B -> B -> Prop) l :
  StronglySorted (fun a b => R (f a) (f b)) l -> StronglySorted R (map f l).
Proof.
  induction 1 as [| x l Hs IH Hx]; simpl; constructor; [exact IH |].
  apply Forall_map. exact Hx.
Qed.

Lemma StronglySorted_weaken {A} (R R' : A -> A -> Prop) l :
  (forall a b, R a b -> R' a b) -> StronglySorted R l -> StronglySorted R' l.
Proof.
  intros HR. induction 1 as [| x l Hs IH Hx]; constructor; [exact IH |].
  eapply Forall_impl; [| exact Hx]. intros b. apply HR.
Qed.

Lemma score_before_total x y :
  score_before x y = false -> score_before y x = true.
Proof.
  unfold score_before. intros H. apply Qle_bool_iff.
  destruct (Qlt_le_dec (Ranking.composite_score x) (Ranking.composite_score y))
    as [Hlt | Hle].
  - now apply Qlt_le_weak.
  - apply Qle_bool_iff in Hle. congruence.
Qed.

Lemma score_before_trans x y z :
  score_before x y = true -> score_before y z = true ->
  score_before x z = true.
Proof.
  unfold score_before. rewrite !Qle_bool_iff. intros H1 H2.
  eapply Qle_trans; eassumption.
Qed.

Lemma sort_by_score_descending l : descending (sort_by_score l).
Proof.
  apply StronglySorted_map.
  eapply StronglySorted_weaken;
    [| apply (stable_sort_sorted score_before score_before_total
                score_before_trans)].
  intros a b H. now apply Qle_bool_iff in H.
Qed.

Lemma with_score_before k x y :
  with_score k x = true -> with_score k y = true -> score_before x y = true.
Proof.
  unfold with_score, score_before. rewrite !Qeq_bool_iff, Qle_bool_iff.
  intros -> ->. apply Qle_refl.
Qed.

Lemma sort_by_score_stable k l :
  filter (with_score k) (sort_by_score l) = filter (with_score k) l.
Proof. apply stable_sort_stable, with_score_before. Qed.

Lemma filter_map_clear k l :
  filter (with_score k) (map clear_rank l)
  = map clear_rank (filter (with_score k) l).
Proof.
  induction l as [| r l IH]; simpl; [reflexivity |].
  change (with_score k (clear_rank r)) with (with_score k r).
  destruct (with_score k r); simpl; now rewrite IH.
Qed.

Lemma assign_ranks_length i l : length (assign_ranks i l) = length l.
Proof. revert i. induction l; intros i; simpl; [| rewrite IHl]; reflexivity. Qed.

Lemma assign_ranks_clear i l :
  map clear_rank (assign_ranks i l) = map clear_rank l.
Proof.
  revert i. induction l as [| r l IH]; intros i; simpl; [reflexivity |].
  now rewrite IH.
Qed.

Lemma assign_ranks_scores i l :
  map Ranking.composite_score (assign_ranks i l)
  = map Ranking.composite_score l.
Proof.
  revert i. induction l as [| r l IH]; intros i; simpl; [reflexivity |].
  now rewrite IH.
Qed.

Lemma assign_ranks_names i l :
  map Ranking.agent_name (assign_ranks i l) = map Ranking.agent_name l.
Proof.
  revert i. induction l as [| r l IH]; intros i; simpl; [reflexivity |].
  now rewrite IH.
Qed.

Lemma assign_ranks_ranks i l :
  map Ranking.rank (assign_ranks i l)
  = map (fun n => Some (i + Z.of_nat n)%Z) (seq 1 (length l)).
Proof.
  revert i. induction l as [| r l IH]; intros i; [reflexivity |].
  cbn [assign_ranks map length seq Ranking.rank Ranking.set_rank].
  rewrite <- (seq_shift (length l) 1), map_map, IH.
  f_equal. apply map_ext. intros n. f_equal. lia.
Qed.

Lemma sorted_then_ranked entries :
  ranked entries (assign_ranks 0 (sort_by_score entries)).
Proof.
  unfold ranked. rewrite assign_ranks_length.
  split; [apply stable_sort_length |].
  split; [rewrite assign_ranks_clear; apply Permutation_map, stable_sort_perm |].
  split; [unfold descending; rewrite assign_ranks_scores;
          apply sort_by_score_descending |].
  split.
  - intros k. rewrite assign_ranks_clear, !filter_map_clear.
    now rewrite sort_by_score_stable.
  - unfold ranks_1_to_N.
    rewrite assign_ranks_ranks, assign_ranks_length. reflexivity.
Qed.

(** *** How the ranking functions run *)

(** Every stored latency has [1 + latency <> 0], so no score divides by
    zero (the data model has latencies positive). *)
Definition latency_ok (p : PerfRow.t) : Prop :=
  ~ 1.0 + PerfRow.response_time p == 0.

Lemma score_performances_ok performances :
  Forall latency_ok performances ->
  exists entries,
    score_performances performances = Ok entries /\
    map Ranking.agent_name entries = map PerfRow.agent_name performances.
Proof.
  induction 1 as [| p l Hp Hl (entries & Hs & Hn)]; simpl.
  - exists []. split; reflexivity.
  - unfold composite_score, divide.
    destruct (Qeq_bool (1.0 + PerfRow.response_time p) 0) eqn:E.
    + apply Qeq_bool_iff in E. contradiction.
    + rewrite Hs. eexists. split; [reflexivity |]. simpl. now rewrite Hn.
Qed.

Lemma score_performances_names performances entries :
  score_performances performances = Ok entries ->
  map Ranking.agent_name entries = map PerfRow.agent_name performances.
Proof.
  revert entries. induction performances as [| p l IH]; simpl; intros entries H.
  - injection H as <-. reflexivity.
  - destruct (composite_score p); [| discriminate].
    destruct (score_performances l) as [rs |]; [| discriminate].
    injection H as <-. simpl. now rewrite (IH rs eq_refl).
Qed.

(** Equations of the monad, for rewriting a run step by step. *)
Lemma bind_ok {A B} (c : M A) (k : A -> M B) w a w' :
  c w = (Ok a, w') -> bind c k w = k a w'.
Proof. intros H. unfold bind. now rewrite H. Qed.

Lemma bind_raised {A B} (c : M A) (k : A -> M B) w e w' :
  c w = (Raised e, w') -> bind c k w = (Raised e, w').
Proof. intros H. unfold bind. now rewrite H. Qed.

Lemma try_ok {A} (c : M A) h w a w' :
  c w = (Ok a, w') -> try_except c h w = (Ok a, w').
Proof. intros H. unfold try_except. now rewrite H. Qed.

Lemma try_raised {A} (c : M A) h w e w' :
  c w = (Raised e, w') -> try_except c h w = h e w'.
Proof. intros H. unfold try_except. now rewrite H. Qed.

(** What every synthetic entry of the fallback looks like. *)
Definition synthetic (r : Ranking.t) : Prop :=
  0.4 <= Ranking.composite_score r /\ Ranking.composite_score r < 0.8 /\
  Ranking.accuracy r = Ranking.composite_score r /\
  Ranking.sharpe_ratio r = (Ranking.composite_score r - 0.5) * 2 /\
  Ranking.total_return r = (Ranking.composite_score r - 0.5) * 0.15 /\
  Ranking.max_drawdown r = 0.1 - Ranking.composite_score r * 0.15 /\
  Ranking.win_rate r = Ranking.composite_score r /\
  Ranking.confidence r = Ranking.composite_score r /\
  0.5 <= Ranking.response_time r /\ Ranking.response_time r < 2.

Lemma uniform_bounds_strict a b u :
  a < b -> 0 <= u -> u < 1 ->
  a <= a + (b - a) * u /\ a + (b - a) * u < b.
Proof. intros Hab H0 H1. split; nra. Qed.

(** Worlds that differ at most in how far the random tape was read. *)
Definition same_but_random (w w' : World) : Prop :=
  random_tape w' = random_tape w /\ clock_tape w' = clock_tape w /\
  clock_pos w' = clock_pos w /\ spy_history w' = spy_history w /\
  db w' = db w.

Lemma same_but_random_refl w : same_but_random w w.
Proof. repeat split. Qed.

Lemma fallback_entries_run roster : forall i w,
  exists entries w',
    fallback_entries i roster w = (Ok entries, w') /\
    map Ranking.agent_name entries = roster /\
    same_but_random w w' /\
    (unit_tape w -> Forall synthetic entries).
Proof.
  induction roster as [| agent rest IH]; intros i w.
  - exists [], w. repeat split. intros _. constructor.
  - cbn [fallback_entries].
    rewrite (bind_ok _ _ _ _ _ (uniform_run 0.4 0.8 w)).
    rewrite (bind_ok _ _ _ _ _ (uniform_run 0.5 2.0 (snd (random w)))).
    destruct (IH (i + 1)%Z (snd (random (snd (random w)))))
      as (entries & w' & Hrun & Hnames & Hsame & Hsyn).
    rewrite (bind_ok _ _ _ _ _ Hrun).
    eexists. exists w'. split; [reflexivity |].
    split; [simpl; now rewrite Hnames |].
    split; [exact Hsame |].
    intros Htape. constructor; [| apply Hsyn; exact Htape].
    destruct (Htape (random_pos w)) as [H0 H1].
    destruct (Htape (S (random_pos w))) as [H2 H3].
    destruct (uniform_bounds_strict 0.4 0.8 _ eq_refl H0 H1) as [Ha Hb].
    destruct (uniform_bounds_strict 0.5 2.0 _ eq_refl H2 H3) as [Hc Hd].
    unfold synthetic. cbn. repeat split; try assumption; try reflexivity; lra.
Qed.

Lemma fallback_rankings_run regime w :
  exists entries w',
    _get_fallback_rankings regime w
    = (Ok (assign_ranks 0 (sort_by_score entries)), w') /\
    fallback_entries 0 agents w = (Ok entries, w') /\
    map Ranking.agent_name entries = agents.
Proof.
  destruct (fallback_entries_run agents 0%Z w) as (entries & w' & Hrun & Hn & _).
  exists entries, w'. unfold _get_fallback_rankings.
  rewrite (bind_ok _ _ _ _ _ Hrun). repeat split; assumption.
Qed.

Lemma fetch_performances_run regime w :
  fetch_performances regime w
  = match db w with
    | Ok s => (Ok (select_performances s regime (clock_tape w (clock_pos w))),
               snd (now w))
    | Raised e => (Raised e, w)
    end.
Proof.
  unfold fetch_performances, bind, acquire. destruct (db w); reflexivity.
Qed.

(** The four ways [_calculate_regime_rankings] runs. *)
Lemma rankings_db_down regime w e :
  db w = Raised e ->
  _calculate_regime_rankings regime w = _get_fallback_rankings regime w.
Proof.
  intros Hdb. unfold _calculate_regime_rankings.
  erewrite try_raised; [reflexivity |].
  erewrite bind_raised; [reflexivity |].
  rewrite fetch_performances_run, Hdb. reflexivity.
Qed.

Lemma rankings_no_rows regime w s :
  db w = Ok s ->
  select_performances s regime (clock_tape w (clock_pos w)) = [] ->
  _calculate_regime_rankings regime w
  = _get_fallback_rankings regime (snd (now w)).
Proof.
  intros Hdb Hsel.
  destruct (fallback_rankings_run regime (snd (now w)))
    as (entries & w' & Hrun & _).
  unfold _calculate_regime_rankings. rewrite Hrun.
  erewrite try_ok; [reflexivity |].
  erewrite bind_ok; [| rewrite fetch_performances_run, Hdb, Hsel; reflexivity].
  cbv beta iota. exact Hrun.
Qed.

Lemma rankings_scored regime w s entries :
  db w = Ok s ->
  select_performances s regime (clock_tape w (clock_pos w)) <> [] ->
  score_performances
    (select_performances s regime (clock_tape w (clock_pos w))) = Ok entries ->
  _calculate_regime_rankings regime w
  = (Ok (assign_ranks 0 (sort_by_score entries)), snd (now w)).
Proof.
  intros Hdb Hne Hsc.
  unfold _calculate_regime_rankings.
  erewrite try_ok; [reflexivity |].
  erewrite bind_ok; [| rewrite fetch_performances_run, Hdb; reflexivity].
  destruct (select_performances s regime (clock_tape w (clock_pos w)))
    as [| p ps]; [contradiction |].
  cbv beta iota.
  erewrite bind_ok; [| unfold lift; rewrite Hsc; reflexivity].
  reflexivity.
Qed.

Lemma rankings_unscorable regime w s e :
  db w = Ok s ->
  select_performances s regime (clock_tape w (clock_pos w)) <> [] ->
  score_performances
    (select_performances s regime (clock_tape w (clock_pos w))) = Raised e ->
  _calculate_regime_rankings regime w
  = _get_fallback_rankings regime (snd (now w)).
Proof.
  intros Hdb Hne Hsc.
  unfold _calculate_regime_rankings.
  erewrite try_raised; [reflexivity |].
  erewrite bind_ok; [| rewrite fetch_performances_run, Hdb; reflexivity].
  destruct (select_performances s regime (clock_tape w (clock_pos w)))
    as [| p ps]; [contradiction |].
  cbv beta iota.
  erewrite bind_raised; [| unfold lift; rewrite Hsc; reflexivity].
  reflexivity.
Qed.

(** The ranking of a regime is always the sorted and ranked list of some
    entries: the scored rows of the query when there are rows and all can
    be scored, the synthetic entries of the roster otherwise. *)
Lemma calculate_regime_rankings_run regime w :
  exists entries w',
    _calculate_regime_rankings regime w
    = (Ok (assign_ranks 0 (sort_by_score entries)), w') /\
    ((exists s,
        db w = Ok s /\
        select_performances s regime (clock_tape w (clock_pos w)) <> [] /\
        score_performances
          (select_performances s regime (clock_tape w (clock_pos w)))
        = Ok entries)
     \/ (exists w0, fallback_entries 0 agents w0 = (Ok entries, w') /\
                    random_tape w0 = random_tape w /\
                    random_pos w0 = random_pos w)).
Proof.
  destruct (db w) as [s | e] eqn:Hdb.
  - destruct (select_performances s regime (clock_tape w (clock_pos w)))
      as [| p ps] eqn:Hsel.
    + destruct (fallback_rankings_run regime (snd (now w)))
        as (entries & w' & Hrun & Hfe & _).
      exists entries, w'. rewrite (rankings_no_rows regime w s Hdb Hsel).
      split; [exact Hrun |]. right. exists (snd (now w)).
      repeat split. exact Hfe.
    + destruct (score_performances (p :: ps)) as [entries | e] eqn:Hsc.
      * exists entries, (snd (now w)). split.
        -- apply (rankings_scored regime w s); rewrite ?Hsel;
             [exact Hdb | discriminate | exact Hsc].
        -- left. exists s. rewrite Hsel.
           split; [reflexivity |]. split; [discriminate | exact Hsc].
      * destruct (fallback_rankings_run regime (snd (now w)))
          as (entries & w' & Hrun & Hfe & _).
        exists entries, w'. split.
        -- rewrite <- Hrun. apply (rankings_unscorable regime w s e);
             rewrite ?Hsel; [exact Hdb | discriminate | exact Hsc].
        -- right. exists (snd (now w)). repeat split. exact Hfe.
  - destruct (fallback_rankings_run regime w) as (entries & w' & Hrun & Hfe & _).
    exists entries, w'. rewrite (rankings_db_down regime w e Hdb).
    split; [exact Hrun |]. right. exists w. repeat split. exact Hfe.
Qed.

(** *** Properties of the rankings *)

Lemma score_performances_length performances entries :
  score_performances performances = Ok entries ->
  length entries = length performances.
Proof.
  intros H. apply score_performances_names in H.
  rewrite <- (length_map Ranking.agent_name), H. apply length_map.
Qed.


Lemma NoDup_map_filter {A B} (f : A -> B) (p : A -> bool) l :
  NoDup (map f l) -> NoDup (map f (filter p l)).
Proof.
  induction l as [| x l IH]; simpl; intros H; [constructor |].
  inversion H as [| y m Hx Hl]; subst.
  destruct (p x); simpl; [| now apply IH].
  constructor; [| now apply IH].
  intros Hin. apply Hx. apply in_map_iff in Hin.
  destruct Hin as (z & Hz & Hzin). apply filter_In in Hzin.
  apply in_map_iff. exists z. tauto.
Qed.

Lemma NoDup_map_injective {A B} (f : A -> B) l :
  (forall x y, f x = f y -> x = y) -> NoDup l -> NoDup (map f l).
Proof.
  intros Hf. induction 1 as [| x l Hx Hl IH]; simpl; constructor; [| exact IH].
  intros Hin. apply in_map_iff in Hin. destruct Hin as (y & Hy & Hyin).
  apply Hf in Hy. subst y. contradiction.
Qed.

Lemma assign_ranks_NoDup i l : NoDup (map Ranking.rank (assign_ranks i l)).
Proof.
  rewrite assign_ranks_ranks.
  apply NoDup_map_injective; [| apply seq_NoDup].
  intros a b H. injection H as H. lia.
Qed.


(** X3.  Every ranking the engine produces, from stored rows or synthetic, is
    non-empty, sorted by composite score in descending order, keeps
    entries with equal scores in the order of its input (the query order
    of the rows, or the roster order), and carries the ranks 1, 2, ..., N. *)
Theorem ranking_sorted_stable_contiguous :
  forall (regime : string) (w : World),
    exists entries out,
      run (_calculate_regime_rankings regime) w = Ok out /\
      out <> [] /\
      ranked entries out /\
      ((exists s,
          db w = Ok s /\
          score_performances
            (select_performances s regime (clock_tape w (clock_pos w)))
          = Ok entries)
       \/ (exists w0 w',
             fallback_entries 0 agents w0 = (Ok entries, w') /\
             random_tape w0 = random_tape w /\
             random_pos w0 = random_pos w)).
Proof.
  intros regime w.
  destruct (calculate_regime_rankings_run regime w)
    as (entries & w' & Hrun & Hsrc).
  exists entries, (assign_ranks 0 (sort_by_score entries)).
  unfold run. rewrite Hrun. split; [reflexivity |].
  assert (Hne : entries <> []).
  { destruct Hsrc as [(s & _ & Hne & Hsc) | (w0 & Hfe & _)].
    - intros ->. apply Hne. apply length_zero_iff_nil.
      now rewrite <- (score_performances_length _ _ Hsc).
    - destruct (fallback_entries_run agents 0%Z w0)
        as (es & w1 & Hrun1 & Hn & _).
      rewrite Hrun1 in Hfe. injection Hfe as -> _.
      intros ->. discriminate Hn. }
  split.
  { intros H. apply Hne. apply length_zero_iff_nil.
    pose proof (sorted_then_ranked entries) as (Hlen & _).
    rewrite <- Hlen, H. reflexivity. }
  split; [apply sorted_then_ranked |].
  destruct Hsrc as [(s & Hdb & _ & Hsc) | (w0 & Hfe & Ht & Hp)].
  - left. exists s. split; assumption.
  - right. exists w0, w'. repeat split; assumption.
Qed.

(** X4.  The ranking has one entry for every performance row of the query, not
    one for every agent: an agent with [k] rows in the window has [k]
    entries, at [k] different ranks. *)
Theorem one_entry_per_row :
  forall (regime : string) (w : World) (s : Store) (agent : string),
    db w = Ok s ->
    select_performances s regime (clock_tape w (clock_pos w)) <> [] ->
    Forall latency_ok
      (select_performances s regime (clock_tape w (clock_pos w))) ->
    exists out,
      run (_calculate_regime_rankings regime) w = Ok out /\
      length out
      = length (select_performances s regime (clock_tape w (clock_pos w))) /\
      count_occ string_dec (map Ranking.agent_name out) agent
      = count_occ string_dec
          (map PerfRow.agent_name
             (select_performances s regime (clock_tape w (clock_pos w))))
          agent /\
      NoDup (map Ranking.rank
               (filter (fun r => String.eqb (Ranking.agent_name r) agent) out)).
Proof.
  intros regime w s agent Hdb Hne Hok.
  destruct (score_performances_ok _ Hok) as (entries & Hsc & Hnames).
  exists (assign_ranks 0 (sort_by_score entries)).
  unfold run. rewrite (rankings_scored regime w s entries Hdb Hne Hsc).
  split; [reflexivity |].
  split.
  { rewrite assign_ranks_length. unfold sort_by_score.
    rewrite stable_sort_length. now apply score_performances_length. }
  split.
  { rewrite assign_ranks_names, <- Hnames.
    apply Permutation_count_occ. apply Permutation_map, Permutation_sym.
    apply stable_sort_perm. }
  apply NoDup_map_filter, assign_ranks_NoDup.
Qed.

Lemma one_entry_per_row_witness :
  exists out,
    run (_calculate_regime_rankings "bull") (world_of (1 # 2) (Ok two_cycles))
    = Ok out /\
    length out = 4%nat /\
    count_occ string_dec (map Ranking.agent_name out) "RiskAgent"%string
    = 2%nat.
Proof.
  destruct (one_entry_per_row "bull" (world_of (1 # 2) (Ok two_cycles))
              two_cycles "RiskAgent" eq_refl)
    as (out & Hrun & Hlen & Hcount & _).
  - vm_compute. discriminate.
  - vm_compute. repeat constructor; discriminate.
  - exists out. split; [exact Hrun |]. split; [exact Hlen | exact Hcount].
Defined.









(** ** Rotation decision engine *)

(** The hard-coded list of currently active agents. *)
Definition current_agents : list string :=
  [ "ForecastAgent"; "MomentumAgent"; "VolatilityAgent" ]%string.

(** [agent in active] *)
Definition is_active (active : list string) (agent : string) : bool :=
  existsb (String.eqb agent) active.

(** The loop over [reversed(rankings)] that stops at the first entry of an
    active agent; [None] when there is none. *)
Definition find_worst_active (active : list string) (rankings : list Ranking.t)
  : option string :=
  option_map Ranking.agent_name
    (find (fun r => is_active active (Ranking.agent_name r)) (rev rankings)).

(** [next(r['composite_score'] for r in rankings
          if r['agent_name'] == agent)] *)
Definition score_of (rankings : list Ranking.t) (agent : string) : Outcome Q :=
  match find (fun r => String.eqb (Ranking.agent_name r) agent) rankings with
  | Some r => Ok (Ranking.composite_score r)
  | None => Raised "StopIteration"
  end.

(** Truth value of [worst_active_agent]: [None] and the empty string are
    false. *)
Definition truthy (agent : option string) : bool :=
  match agent with
  | Some a => negb (String.eqb a "")
  | None => false
  end.

(** The body of [_evaluate_rotation_need] once the rankings are there, for
    any list of active agents. *)
Definition rotation_decision (active : list string)
  (rankings : list Ranking.t) (current_regime : string)
  : M (option RotationDecision.t) :=
  match rankings with
  | [] | [_] => ret None
  | best :: _ =>
      let best_agent := Ranking.agent_name best in
      let worst_active_agent := find_worst_active active rankings in
      if truthy worst_active_agent && negb (is_active active best_agent) then
        let best_score := Ranking.composite_score best in
        worst_score <-
          lift (score_of rankings
                  (match worst_active_agent with Some a => a | None => "" end)) ;;
        let improvement := best_score - worst_score in
        if Py.gtb improvement 0.1 then
          t_id <- now ;;
          t <- now ;;
          ret (Some
                 (RotationDecision.mk
                    ("rotation_" ++ Fmt.strftime_compact t_id)
                    (match worst_active_agent with Some a => a | None => "" end)
                    best_agent
                    ("Performance improvement: " ++ Fmt.percent2 improvement)
                    (Py.min 0.95 (improvement * 2))
                    improvement
                    current_regime
                    t))
        else ret None
      else ret None
  end.

Definition _evaluate_rotation_need (current_regime : string)
  : M (option RotationDecision.t) :=
  try_except
    (rankings <- _calculate_regime_rankings current_regime ;;
     rotation_decision current_agents rankings current_regime)
    (fun _ => ret None).

(** *** Concrete runs *)

Definition entry (agent : string) (score : Q) : Ranking.t :=
  Ranking.mk agent None score score 0 0 0 score score 1.

Definition three_ranked : list Ranking.t :=
  assign_ranks 0
    [ entry "RiskAgent" 0.9; entry "MomentumAgent" 0.8;
      entry "ForecastAgent" 0.6 ].

Example rotation_emitted :
  exists d,
    run (rotation_decision current_agents three_ranked "bull")
        (world_of (1 # 2) (Raised "down")) = Ok (Some d) /\
    RotationDecision.decision_id d = "rotation_20261104_094405"%string /\
    RotationDecision.from_agent d = "ForecastAgent"%string /\
    RotationDecision.to_agent d = "RiskAgent"%string /\
    RotationDecision.reason d = "Performance improvement: 30.00%"%string /\
    RotationDecision.confidence d == 0.6 /\
    RotationDecision.expected_improvement d == 0.3 /\
    RotationDecision.timestamp d = 1793785445000001%Z.
Proof. eexists. split; [vm_compute; reflexivity |]. vm_compute. tauto. Qed.

(** An improvement of exactly 0.10 is not enough. *)
Example rotation_at_threshold :
  run (rotation_decision current_agents
         (assign_ranks 0 [entry "RiskAgent" 0.7; entry "ForecastAgent" 0.6])
         "bull")
      (world_of (1 # 2) (Raised "down"))
  = Ok None.
Proof. vm_compute. reflexivity. Qed.

(** *** How the rotation decision runs *)

Lemma is_active_In active agent :
  is_active active agent = true <-> In agent active.
Proof.
  unfold is_active. rewrite existsb_exists. split.
  - intros (x & Hx & Heq). apply String.eqb_eq in Heq. now subst.
  - intros H. exists agent. split; [exact H | apply String.eqb_refl].
Qed.

Lemma find_worst_active_some active rankings worst :
  find_worst_active active rankings = Some worst ->
  In worst active /\
  exists r, In r rankings /\ Ranking.agent_name r = worst.
Proof.
  unfold find_worst_active. intros H.
  destruct (find _ (rev rankings)) as [r |] eqn:Hf; [| discriminate].
  injection H as <-. apply find_some in Hf. destruct Hf as [Hin Hact].
  split; [now apply is_active_In |].
  exists r. split; [now apply in_rev | reflexivity].
Qed.

Lemma find_worst_active_none active rankings :
  find_worst_active active rankings = None <->
  forall r, In r rankings -> ~ In (Ranking.agent_name r) active.
Proof.
  unfold find_worst_active. split.
  - intros H r Hin Hact.
    destruct (find _ (rev rankings)) as [x |] eqn:Hf; [discriminate |].
    apply in_rev in Hin. pose proof (find_none _ _ Hf r Hin) as Hn.
    cbv beta in Hn. apply is_active_In in Hact. congruence.
  - intros H. destruct (find _ (rev rankings)) as [x |] eqn:Hf; [| reflexivity].
    apply find_some in Hf. destruct Hf as [Hin Hact].
    exfalso. apply (H x); [now apply in_rev | now apply is_active_In].
Qed.

(** The entries ranked below the candidate's last entry are not active:
    the candidate is the lowest-ranked active agent. *)
Lemma find_worst_active_last active rankings worst :
  find_worst_active active rankings = Some worst ->
  exists above r below,
    rankings = above ++ r :: below /\
    Ranking.agent_name r = worst /\
    Forall (fun x => ~ In (Ranking.agent_name x) active) below.
Proof.
  unfold find_worst_active.
  induction rankings as [| x l IH] using rev_ind; [discriminate |].
  rewrite rev_app_distr. cbn [rev app find].
  destruct (is_active active (Ranking.agent_name x)) eqn:Hx.
  - cbn. intros H. injection H as <-.
    exists l, x, []. repeat split. constructor.
  - intros H. destruct (IH H) as (above & r & below & -> & Hr & Hb).
    exists above, r, (below ++ [x]). rewrite <- app_assoc. repeat split.
    + exact Hr.
    + apply Forall_app. split; [exact Hb |].
      constructor; [| constructor].
      intros Hin. apply is_active_In in Hin. congruence.
Qed.

Lemma score_of_named rankings r :
  In r rankings ->
  exists first,
    find (fun x => String.eqb (Ranking.agent_name x) (Ranking.agent_name r))
         rankings = Some first /\
    Ranking.agent_name first = Ranking.agent_name r /\
    In first rankings.
Proof.
  intros Hin.
  destruct (find _ rankings) as [first |] eqn:Hf.
  - exists first. apply find_some in Hf. destruct Hf as [Hi He].
    apply String.eqb_eq in He. repeat split; assumption.
  - exfalso. pose proof (find_none _ _ Hf r Hin) as H.
    cbv beta in H. rewrite String.eqb_refl in H. discriminate.
Qed.

(** The decision built from the top entry [best], the candidate [worst],
    the score [worst_score] looked up for it and two clock readings. *)
Definition decision_of (best : Ranking.t) (worst : string) (worst_score : Q)
  (current_regime : string) (t_id t : Z) : RotationDecision.t :=
  RotationDecision.mk
    ("rotation_" ++ Fmt.strftime_compact t_id) worst (Ranking.agent_name best)
    ("Performance improvement: "
       ++ Fmt.percent2 (Ranking.composite_score best - worst_score))
    (Py.min 0.95 ((Ranking.composite_score best - worst_score) * 2))
    (Ranking.composite_score best - worst_score) current_regime t.

(** Either there is no decision and the world is left alone, or all the
    guards passed and the decision is built with two readings of the
    clock. *)
Lemma rotation_decision_cases active rankings current_regime w :
  rotation_decision active rankings current_regime w = (Ok None, w)
  \/ exists best rest worst first,
       rankings = best :: rest /\ rest <> [] /\
       find_worst_active active rankings = Some worst /\
       worst <> ""%string /\
       is_active active (Ranking.agent_name best) = false /\
       find (fun x => String.eqb (Ranking.agent_name x) worst) rankings
       = Some first /\
       0.1 < Ranking.composite_score best - Ranking.composite_score first /\
       rotation_decision active rankings current_regime w
       = (Ok (Some (decision_of best worst (Ranking.composite_score first)
                      current_regime (clock_tape w (clock_pos w))
                      (clock_tape w (S (clock_pos w))))),
          snd (now (snd (now w)))).
Proof.
  destruct rankings as [| best [| second rest]]; [left; reflexivity .. |].
  unfold rotation_decision.
  destruct (find_worst_active active (best :: second :: rest))
    as [worst |] eqn:Hw; [| left; reflexivity].
  cbn [truthy].
  destruct (String.eqb worst "") eqn:He; [left; reflexivity |].
  destruct (is_active active (Ranking.agent_name best)) eqn:Hb;
    [left; reflexivity |].
  cbn [negb andb].
  destruct (find_worst_active_some _ _ _ Hw) as (_ & r & Hin & Hr).
  destruct (score_of_named _ r Hin) as (first & Hf & _ & _).
  rewrite Hr in Hf.
  unfold score_of. rewrite Hf. unfold lift.
  rewrite (bind_ok _ _ w (Ranking.composite_score first) w eq_refl).
  destruct (Py.gtb (Ranking.composite_score best
                    - Ranking.composite_score first) 0.1) eqn:Hg;
    [| left; reflexivity].
  right. exists best, (second :: rest), worst, first.
  split; [reflexivity |]. split; [discriminate |].
  split; [reflexivity |].
  split; [now apply String.eqb_neq |].
  split; [exact Hb |]. split; [exact Hf |].
  split; [now apply Py.gtb_gt |]. reflexivity.
Qed.

Lemma rotation_decision_emits active best rest worst first current_regime w :
  rest <> [] ->
  find_worst_active active (best :: rest) = Some worst ->
  worst <> ""%string ->
  is_active active (Ranking.agent_name best) = false ->
  find (fun x => String.eqb (Ranking.agent_name x) worst) (best :: rest)
  = Some first ->
  0.1 < Ranking.composite_score best - Ranking.composite_score first ->
  rotation_decision active (best :: rest) current_regime w
  = (Ok (Some (decision_of best worst (Ranking.composite_score first)
                 current_regime (clock_tape w (clock_pos w))
                 (clock_tape w (S (clock_pos w))))),
     snd (now (snd (now w)))).
Proof.
  intros Hrest Hw Hne Hb Hf Himp.
  destruct rest as [| second rest]; [contradiction |].
  unfold rotation_decision. rewrite Hw. cbn [truthy].
  apply String.eqb_neq in Hne. rewrite Hne, Hb. cbn [negb andb].
  unfold score_of. rewrite Hf. unfold lift.
  rewrite (bind_ok _ _ w (Ranking.composite_score first) w eq_refl).
  apply Py.gtb_gt in Himp. rewrite Himp. reflexivity.
Qed.

(** *** Properties of the rotation decision *)


(** X8.  Every emitted decision reports as expected improvement the top score
    minus the score of the first entry that carries the source agent's
    name, a confidence of min(0.95, 2 * improvement), which lies in
    (0.2, 0.95], the top entry's agent as target, the given regime, and the
    improvement as a percentage in its reason. *)
Theorem rotation_decision_fields :
  forall (active : list string) (rankings : list Ranking.t)
         (current_regime : string) (w : World) (d : RotationDecision.t),
    run (rotation_decision active rankings current_regime) w = Ok (Some d) ->
    exists best first,
      hd_error rankings = Some best /\
      find (fun x => String.eqb (Ranking.agent_name x)
                       (RotationDecision.from_agent d)) rankings
      = Some first /\
      RotationDecision.to_agent d = Ranking.agent_name best /\
      RotationDecision.expected_improvement d
      = Ranking.composite_score best - Ranking.composite_score first /\
      0.1 < RotationDecision.expected_improvement d /\
      RotationDecision.confidence d
      = Py.min 0.95 (RotationDecision.expected_improvement d * 2) /\
      0.2 < RotationDecision.confidence d /\
      RotationDecision.confidence d <= 0.95 /\
      RotationDecision.regime d = current_regime /\
      RotationDecision.reason d
      = ("Performance improvement: "
           ++ Fmt.percent2 (RotationDecision.expected_improvement d))%string.
Proof.
  intros active rankings current_regime w d Hd. unfold run in Hd.
  destruct (rotation_decision_cases active rankings current_regime w)
    as [Hnone | (best & rest & worst & first & -> & _ & _ & _ & _ & Hf
                 & Himp & Hrun)].
  { rewrite Hnone in Hd. discriminate. }
  rewrite Hrun in Hd. cbn [fst] in Hd. injection Hd as <-.
  exists best, first. unfold decision_of.
  cbn [RotationDecision.from_agent RotationDecision.to_agent
       RotationDecision.expected_improvement RotationDecision.confidence
       RotationDecision.regime RotationDecision.reason hd_error].
  repeat split; try assumption; try reflexivity.
  - destruct (Py.min_cases 0.95
                ((Ranking.composite_score best
                  - Ranking.composite_score first) * 2))
      as [[Hlt ->] | [Hge ->]]; [lra | reflexivity].
  - apply Py.min_le_l.
Qed.

Lemma rotation_decision_fields_witness :
  exists best first,
    hd_error three_ranked = Some best /\
    find (fun x => String.eqb (Ranking.agent_name x) "ForecastAgent")
         three_ranked = Some first /\
    0.1 < Ranking.composite_score best - Ranking.composite_score first.
Proof.
  edestruct (rotation_decision_fields current_agents three_ranked "bull"
               (world_of (1 # 2) (Raised "down")))
    as (best & first & Hb & Hf & _ & Hexp & Himp & _).
  - vm_compute. reflexivity.
  - exists best, first. cbn [RotationDecision.from_agent] in Hf.
    rewrite Hexp in Himp. repeat split; assumption.
Defined.

(** X9.  Every emitted decision moves from an active agent to an agent that is
    not active (so the two differ), and its source is the lowest-ranked
    active agent: no entry ranked below the source's last entry belongs to
    an active agent. *)
Theorem rotation_membership :
  forall (active : list string) (rankings : list Ranking.t)
         (current_regime : string) (w : World) (d : RotationDecision.t),
    run (rotation_decision active rankings current_regime) w = Ok (Some d) ->
    In (RotationDecision.from_agent d) active /\
    ~ In (RotationDecision.to_agent d) active /\
    RotationDecision.from_agent d <> RotationDecision.to_agent d /\
    exists above r below,
      rankings = above ++ r :: below /\
      Ranking.agent_name r = RotationDecision.from_agent d /\
      Forall (fun x => ~ In (Ranking.agent_name x) active) below.
Proof.
  intros active rankings current_regime w d Hd. unfold run in Hd.
  destruct (rotation_decision_cases active rankings current_regime w)
    as [Hnone | (best & rest & worst & first & Hr & _ & Hw & _ & Hb & _
                 & _ & Hrun)].
  { rewrite Hnone in Hd. discriminate. }
  rewrite Hrun in Hd. cbn [fst] in Hd. injection Hd as <-.
  unfold decision_of.
  cbn [RotationDecision.from_agent RotationDecision.to_agent].
  destruct (find_worst_active_some _ _ _ Hw) as (Hin & _).
  assert (Hout : ~ In (Ranking.agent_name best) active).
  { intros H. apply is_active_In in H. congruence. }
  split; [exact Hin |]. split; [exact Hout |].
  split; [intros Heq; apply Hout; now rewrite <- Heq |].
  apply find_worst_active_last. exact Hw.
Qed.

Lemma rotation_membership_witness :
  In "ForecastAgent"%string current_agents /\
  ~ In "RiskAgent"%string current_agents.
Proof.
  edestruct (rotation_membership current_agents three_ranked "bull"
               (world_of (1 # 2) (Raised "down")))
    as (Hfrom & Hto & _).
  - vm_compute. reflexivity.
  - split; [exact Hfrom | exact Hto].
Defined.

(** X10.  The clock is the only thing of the world a decision depends on: with
    the same active agents, ranking and regime, two runs in any two worlds
    both emit or both do not, and two emitted decisions agree on source,
    target, reason, confidence, expected improvement and regime.  The
    identifier is the first clock reading, formatted down to the second; the
    timestamp is the second reading. *)
Theorem rotation_depends_on_clock_only :
  forall (active : list string) (rankings : list Ranking.t)
         (current_regime : string) (w1 w2 : World),
    match run (rotation_decision active rankings current_regime) w1,
          run (rotation_decision active rankings current_regime) w2 with
    | Ok None, Ok None => True
    | Ok (Some d1), Ok (Some d2) =>
        RotationDecision.from_agent d1 = RotationDecision.from_agent d2 /\
        RotationDecision.to_agent d1 = RotationDecision.to_agent d2 /\
        RotationDecision.reason d1 = RotationDecision.reason d2 /\
        RotationDecision.confidence d1 = RotationDecision.confidence d2 /\
        RotationDecision.expected_improvement d1
        = RotationDecision.expected_improvement d2 /\
        RotationDecision.regime d1 = RotationDecision.regime d2 /\
        RotationDecision.decision_id d1
        = ("rotation_"
             ++ Fmt.strftime_compact (clock_tape w1 (clock_pos w1)))%string /\
        RotationDecision.timestamp d1 = clock_tape w1 (S (clock_pos w1)) /\
        RotationDecision.decision_id d2
        = ("rotation_"
             ++ Fmt.strftime_compact (clock_tape w2 (clock_pos w2)))%string /\
        RotationDecision.timestamp d2 = clock_tape w2 (S (clock_pos w2))
    | _, _ => False
    end.
Proof.
  intros active rankings current_regime w1 w2. unfold run.
  destruct (rotation_decision_cases active rankings current_regime w1)
    as [Hn1 | (best & rest & worst & first & -> & H2 & H3 & H4 & H5 & H6
               & H7 & Hrun1)].
  - rewrite Hn1.
    destruct (rotation_decision_cases active rankings current_regime w2)
      as [Hn2 | (best & rest & worst & first & -> & H2 & H3 & H4 & H5 & H6
                 & H7 & _)].
    + rewrite Hn2. exact I.
    + rewrite (rotation_decision_emits active best rest worst first
                 current_regime w1 H2 H3 H4 H5 H6 H7) in Hn1.
      discriminate.
  - rewrite Hrun1.
    rewrite (rotation_decision_emits active best rest worst first
               current_regime w2 H2 H3 H4 H5 H6 H7).
    unfold decision_of.
    cbn [fst RotationDecision.from_agent RotationDecision.to_agent
         RotationDecision.reason RotationDecision.confidence
         RotationDecision.expected_improvement RotationDecision.regime
         RotationDecision.decision_id RotationDecision.timestamp].
    repeat split; reflexivity.
Qed.

Lemma find_first_is_best_scored (p : Ranking.t -> bool) l x :
  descending l -> find p l = Some x ->
  forall r, In r l -> p r = true ->
            Ranking.composite_score r <= Ranking.composite_score x.
Proof.
  unfold descending. induction l as [| a l IH]; [discriminate |].
  cbn [map find]. intros Hs Hf r Hin Hp.
  inversion Hs as [| ? ? Hs' Ha]; subst.
  destruct (p a) eqn:Hpa.
  - injection Hf as <-. destruct Hin as [<- | Hin]; [apply Qle_refl |].
    rewrite Forall_forall in Ha. apply Ha. now apply in_map.
  - destruct Hin as [<- | Hin]; [congruence |].
    now apply (IH Hs' Hf r).
Qed.

(** X11.  On a ranking sorted in descending order the improvement is measured
    against the best entry of the source agent: when an agent has several
    entries, the expected improvement is at most the top score minus the
    score of any of them. *)
Theorem rotation_improvement_against_best_entry :
  forall (active : list string) (rankings : list Ranking.t)
         (current_regime : string) (w : World) (d : RotationDecision.t),
    descending rankings ->
    run (rotation_decision active rankings current_regime) w = Ok (Some d) ->
    exists best,
      hd_error rankings = Some best /\
      forall r, In r rankings ->
                Ranking.agent_name r = RotationDecision.from_agent d ->
                RotationDecision.expected_improvement d
                <= Ranking.composite_score best - Ranking.composite_score r.
Proof.
  intros active rankings current_regime w d Hdesc Hd. unfold run in Hd.
  destruct (rotation_decision_cases active rankings current_regime w)
    as [Hnone | (best & rest & worst & first & -> & _ & _ & _ & _ & Hf
                 & _ & Hrun)].
  { rewrite Hnone in Hd. discriminate. }
  rewrite Hrun in Hd. cbn [fst] in Hd. injection Hd as <-.
  exists best. split; [reflexivity |].
  unfold decision_of.
  cbn [RotationDecision.from_agent RotationDecision.expected_improvement].
  intros r Hin Hname.
  assert (Hle : Ranking.composite_score r <= Ranking.composite_score first).
  { apply (find_first_is_best_scored _ _ _ Hdesc Hf r Hin).
    cbv beta. rewrite Hname. apply String.eqb_refl. }
  lra.
Qed.

Definition two_forecasts : list Ranking.t :=
  assign_ranks 0
    [ entry "RiskAgent" 0.9; entry "ForecastAgent" 0.7;
      entry "ForecastAgent" 0.5 ].

Lemma rotation_improvement_against_best_entry_witness :
  exists d,
    run (rotation_decision current_agents two_forecasts "bull")
        (world_of (1 # 2) (Raised "down")) = Ok (Some d) /\
    RotationDecision.expected_improvement d == 0.2 /\
    RotationDecision.expected_improvement d <= 0.9 - 0.5.
Proof.
  eexists. split; [vm_compute; reflexivity |].
  split; [vm_compute; reflexivity |].
  edestruct (rotation_improvement_against_best_entry current_agents
               two_forecasts "bull" (world_of (1 # 2) (Raised "down")))
    as (best & Hb & Hall).
  - vm_compute. repeat constructor; discriminate.
  - vm_compute. reflexivity.
  - injection Hb as <-.
    exact (Hall (Ranking.set_rank 3 (entry "ForecastAgent" 0.5))
             (or_intror (or_intror (or_introl eq_refl))) eq_refl).
Defined.

(** *** The rotation evaluation as a whole *)

Lemma rotation_decision_ok active rankings current_regime w :
  exists o w',
    rotation_decision active rankings current_regime w = (Ok o, w').
Proof.
  destruct (rotation_decision_cases active rankings current_regime w)
    as [H | (best & rest & worst & first & _ & _ & _ & _ & _ & _ & _ & H)];
    rewrite H; eexists; eexists; reflexivity.
Qed.

Lemma evaluate_rotation_need_run current_regime w out w1 :
  _calculate_regime_rankings current_regime w = (Ok out, w1) ->
  _evaluate_rotation_need current_regime w
  = rotation_decision current_agents out current_regime w1.
Proof.
  intros Hcalc.
  destruct (rotation_decision_ok current_agents out current_regime w1)
    as (o & w2 & Hdec).
  rewrite Hdec. unfold _evaluate_rotation_need.
  erewrite try_ok; [reflexivity |].
  erewrite bind_ok; [| exact Hcalc].
  cbv beta. exact Hdec.
Qed.

(** X12.  The rotation evaluation never raises, whatever the store and the
    random draws; a decision it emits carries the regime it was asked
    about, takes its source from the three active agents and its target
    from outside them, and promises an improvement above 0.10. *)
Theorem evaluate_rotation_need_safe :
  forall (current_regime : string) (w : World),
    exists o,
      run (_evaluate_rotation_need current_regime) w = Ok o /\
      forall d, o = Some d ->
        In (RotationDecision.from_agent d) current_agents /\
        ~ In (RotationDecision.to_agent d) current_agents /\
        RotationDecision.regime d = current_regime /\
        0.1 < RotationDecision.expected_improvement d.
Proof.
  intros current_regime w.
  destruct (calculate_regime_rankings_run current_regime w)
    as (entries & w1 & Hcalc & _).
  destruct (rotation_decision_cases current_agents
              (assign_ranks 0 (sort_by_score entries)) current_regime w1)
    as [Hnone | (best & rest & worst & first & Hr & _ & Hw & _ & Hb & _
                 & Himp & Hrun)].
  - exists None. unfold run.
    rewrite (evaluate_rotation_need_run _ _ _ _ Hcalc), Hnone.
    split; [reflexivity | discriminate].
  - eexists. unfold run.
    rewrite (evaluate_rotation_need_run _ _ _ _ Hcalc), Hrun.
    split; [reflexivity |].
    intros d Hd. injection Hd as <-. unfold decision_of.
    cbn [RotationDecision.from_agent RotationDecision.to_agent
         RotationDecision.regime RotationDecision.expected_improvement].
    destruct (find_worst_active_some _ _ _ Hw) as (Hin & _).
    split; [exact Hin |]. split; [| split; [reflexivity | exact Himp]].
    intros H. apply is_active_In in H. congruence.
Qed.

(** A world in which the store is unreachable and the draws give RiskAgent
    the score 0.76 and every other agent 0.4. *)
Definition outage_world : World :=
  {| random_tape := fun n => if Nat.eqb n 8 then 9 # 10 else 0;
     random_pos := 0;
     clock_tape := fun n => (1793785445000000 + Z.of_nat n)%Z; clock_pos := 0;
     spy_history := Raised "offline"; db := Raised "ConnectionRefusedError" |}.

(** Synthetic rankings do trigger rotations. *)
Example rotation_during_outage :
  exists d,
    run (_evaluate_rotation_need "neutral") outage_world = Ok (Some d) /\
    RotationDecision.from_agent d = "VolatilityAgent"%string /\
    RotationDecision.to_agent d = "RiskAgent"%string /\
    RotationDecision.expected_improvement d == 0.36 /\
    RotationDecision.confidence d == 0.72.
Proof. eexists. split; [vm_compute; reflexivity |]. vm_compute. tauto. Qed.




(** ** Summary *)

Module TopAgent.
Record t := mk {
  agent_name : string;
  rank : Z;
  composite_score : Q;
  accuracy : Q }.
End TopAgent.

Module RecentRotation.
Record t := mk {
  decision_id : string;
  from_agent : string;
  to_agent : string;
  reason : string;
  confidence : Q;
  created_at : string }.
End RecentRotation.

Module PerformanceSummary.
Record t := mk {
  total_agents : Z;
  avg_accuracy : Q;
  avg_sharpe_ratio : Q;
  avg_total_return : Q;
  avg_response_time : Q }.
End PerformanceSummary.

Module Summary.
Record t := mk {
  current_regime : string;
  regime_confidence : Q;
  top_agents : list TopAgent.t;
  recent_rotations : list RecentRotation.t;
  performance_summary : PerformanceSummary.t;
  last_updated : string }.
End Summary.

(** [SELECT * FROM meta_regime_analysis ORDER BY created_at DESC LIMIT 1] *)
Definition select_latest_regime (s : Store) : option RegimeRow.t :=
  hd_error
    (stable_sort
       (fun x y => (RegimeRow.created_at y <=? RegimeRow.created_at x)%Z)
       (meta_regime_analysis s)).

(** [SELECT * FROM meta_agent_rankings WHERE regime = $1
     ORDER BY rank ASC LIMIT 10] *)
Definition select_rankings (s : Store) (regime : string)
  : list RankingRow.t :=
  firstn 10
    (stable_sort
       (fun x y => (RankingRow.rank x <=? RankingRow.rank y)%Z)
       (filter (fun r => String.eqb (RankingRow.regime r) regime)
               (meta_agent_rankings s))).

(** [SELECT * FROM meta_rotation_decisions ORDER BY created_at DESC LIMIT 5] *)
Definition select_recent_rotations (s : Store) : list RotationRow.t :=
  firstn 5
    (stable_sort
       (fun x y => (RotationRow.created_at y <=? RotationRow.created_at x)%Z)
       (meta_rotation_decisions s)).

(** The one row of the aggregate query; [AVG] of no rows is NULL. *)
Record Aggregate := {
  agg_total_agents : Z;
  agg_avg_accuracy : option Q;
  agg_avg_sharpe_ratio : option Q;
  agg_avg_total_return : option Q;
  agg_avg_response_time : option Q }.

Definition avg (xs : list Q) : option Q :=
  match xs with
  | [] => None
  | _ :: _ => Some (Py.mean xs)
  end.

(** [SELECT COUNT(DISTINCT agent_name), AVG(accuracy), AVG(sharpe_ratio),
            AVG(total_return), AVG(response_time)
     FROM meta_agent_performance
     WHERE created_at >= NOW() - INTERVAL '24 hours'] *)
Definition select_performance_summary (s : Store) (db_now : Z) : Aggregate :=
  let rows :=
    filter (fun p => (db_now - interval_24_hours <=? PerfRow.created_at p)%Z)
           (meta_agent_performance s) in
  {| agg_total_agents :=
       Z.of_nat (length (nodup string_dec (map PerfRow.agent_name rows)));
     agg_avg_accuracy := avg (map PerfRow.accuracy rows);
     agg_avg_sharpe_ratio := avg (map PerfRow.sharpe_ratio rows);
     agg_avg_total_return := avg (map PerfRow.total_return rows);
     agg_avg_response_time := avg (map PerfRow.response_time rows) |}.

(** [float(x) if performance_summary and x else 0.0]: NULL and zero are
    both false. *)
Definition float_or_zero (x : option Q) : Q :=
  match x with
  | Some q => if Qeq_bool q 0 then 0.0 else q
  | None => 0.0
  end.

Definition top_agent_of (r : RankingRow.t) : TopAgent.t :=
  TopAgent.mk (RankingRow.agent_name r) (RankingRow.rank r)
    (RankingRow.composite_score r) (RankingRow.accuracy r).

Definition recent_rotation_of (r : RotationRow.t) : RecentRotation.t :=
  RecentRotation.mk (RotationRow.decision_id r) (RotationRow.from_agent r)
    (RotationRow.to_agent r) (RotationRow.reason r)
    (RotationRow.confidence r) (Fmt.isoformat (RotationRow.created_at r)).

(** The payload of the [except] clause. *)
Definition default_summary (t : Z) : Summary.t :=
  Summary.mk "neutral" 0.6 [] []
    (PerformanceSummary.mk 0 0.0 0.0 0.0 0.0) (Fmt.isoformat t).

(** The body of the [try] of [get_meta_evaluation_summary]. *)
Definition summary_body : M Summary.t :=
  s <- acquire ;;
  let regime_analysis := select_latest_regime s in
  let current_regime :=
    match regime_analysis with
    | Some r => RegimeRow.regime r
    | None => "neutral"%string
    end in
  let rankings := select_rankings s current_regime in
  let recent_rotations := select_recent_rotations s in
  db_now <- now ;;
  let performance_summary := select_performance_summary s db_now in
  t <- now ;;
  ret (Summary.mk
         current_regime
         (match regime_analysis with
          | Some r => RegimeRow.confidence r
          | None => 0.0
          end)
         (map top_agent_of rankings)
         (map recent_rotation_of recent_rotations)
         (PerformanceSummary.mk
            (agg_total_agents performance_summary)
            (float_or_zero (agg_avg_accuracy performance_summary))
            (float_or_zero (agg_avg_sharpe_ratio performance_summary))
            (float_or_zero (agg_avg_total_return performance_summary))
            (float_or_zero (agg_avg_response_time performance_summary)))
         (Fmt.isoformat t)).

Definition get_meta_evaluation_summary : M Summary.t :=
  try_except summary_body (fun _ => t <- now ;; ret (default_summary t)).

(** *** Concrete runs *)

Definition stocked : Store :=
  {| agent_signals := [];
     meta_agent_performance :=
       [ perf "ForecastAgent" 0.5 1 1793785000000000;
         perf "RiskAgent" 0.75 1 1793785000000001;
         perf "RiskAgent" 0.25 1 1000000000000000 ];
     meta_regime_analysis :=
       [ RegimeRow.mk "bear" 0.7 1793780000000000;
         RegimeRow.mk "bull" 0.9 1793785000000000 ];
     meta_agent_rankings :=
       [ RankingRow.mk "RiskAgent" "bull" 2 0.5 0.5 1793785000000000;
         RankingRow.mk "ForecastAgent" "bear" 1 0.9 0.9 1793785000000000;
         RankingRow.mk "ForecastAgent" "bull" 1 0.6 0.6 1793785000000000 ];
     meta_rotation_decisions :=
       [ RotationRow.mk "rotation_20261104_080000" "ForecastAgent" "RiskAgent"
           "Performance improvement: 30.00%" 0.6 0.3 "bull"
           1793779200000000 ] |}.

Example summary_stocked :
  exists p,
    run get_meta_evaluation_summary (world_of (1 # 2) (Ok stocked)) = Ok p /\
    Summary.current_regime p = "bull"%string /\
    Summary.regime_confidence p == 0.9 /\
    map TopAgent.agent_name (Summary.top_agents p)
    = ["ForecastAgent"; "RiskAgent"]%string /\
    map RecentRotation.created_at (Summary.recent_rotations p)
    = ["2026-11-04T08:00:00"]%string /\
    PerformanceSummary.total_agents (Summary.performance_summary p) = 2%Z /\
    PerformanceSummary.avg_accuracy (Summary.performance_summary p) == 0.625 /\
    Summary.last_updated p = "2026-11-04T09:44:05.000001"%string.
Proof. eexists. split; [vm_compute; reflexivity |]. vm_compute. tauto. Qed.

Example summary_db_down :
  run get_meta_evaluation_summary (world_of (1 # 2) (Raised "down"))
  = Ok (default_summary 1793785445000000).
Proof. reflexivity. Qed.

(** *** How the summary runs *)

(** The payload read from the tables [s] with the database clock at
    [db_now] and the service clock at [t]. *)
Definition summary_from (s : Store) (db_now t : Z) : Summary.t :=
  let regime_analysis := select_latest_regime s in
  let current_regime :=
    match regime_analysis with
    | Some r => RegimeRow.regime r
    | None => "neutral"%string
    end in
  let performance_summary := select_performance_summary s db_now in
  Summary.mk
    current_regime
    (match regime_analysis with
     | Some r => RegimeRow.confidence r
     | None => 0.0
     end)
    (map top_agent_of (select_rankings s current_regime))
    (map recent_rotation_of (select_recent_rotations s))
    (PerformanceSummary.mk
       (agg_total_agents performance_summary)
       (float_or_zero (agg_avg_accuracy performance_summary))
       (float_or_zero (agg_avg_sharpe_ratio performance_summary))
       (float_or_zero (agg_avg_total_return performance_summary))
       (float_or_zero (agg_avg_response_time performance_summary)))
    (Fmt.isoformat t).

Lemma summary_run_up w s :
  db w = Ok s ->
  get_meta_evaluation_summary w
  = (Ok (summary_from s (clock_tape w (clock_pos w))
           (clock_tape w (S (clock_pos w)))),
     snd (now (snd (now w)))).
Proof.
  intros Hdb. unfold get_meta_evaluation_summary.
  erewrite try_ok; [reflexivity |].
  unfold summary_body.
  erewrite bind_ok; [| unfold acquire; rewrite Hdb; reflexivity].
  reflexivity.
Qed.


(** *** Properties of the summary *)

Lemma In_firstn {A} (x : A) n l : In x (firstn n l) -> In x l.
Proof.
  revert n. induction l as [| a l IH]; intros [| n]; simpl; try tauto.
  intros [H | H]; [now left | right; now apply (IH n)].
Qed.

Lemma StronglySorted_firstn {A} (R : A -> A -> Prop) n l :
  StronglySorted R l -> StronglySorted R (firstn n l).
Proof.
  intros H. revert n. induction H as [| x l Hs IH Hx]; intros [| n]; simpl;
    try constructor.
  - apply IH.
  - rewrite Forall_forall in *. intros y Hy. apply Hx.
    eapply In_firstn. exact Hy.
Qed.



(** X15.  When the store holds regime analyses, the summary reports the regime
    and the confidence of one whose creation time no other exceeds. *)
Theorem summary_reports_latest_regime :
  forall (w : World) (s : Store),
    db w = Ok s -> meta_regime_analysis s <> [] ->
    exists p r,
      run get_meta_evaluation_summary w = Ok p /\
      In r (meta_regime_analysis s) /\
      Summary.current_regime p = RegimeRow.regime r /\
      Summary.regime_confidence p = RegimeRow.confidence r /\
      forall r', In r' (meta_regime_analysis s) ->
                 (RegimeRow.created_at r' <= RegimeRow.created_at r)%Z.
Proof.
  intros w s Hdb Hne. unfold run. rewrite (summary_run_up w s Hdb).
  unfold summary_from, select_latest_regime.
  set (before := fun x y : RegimeRow.t =>
                   (RegimeRow.created_at y <=? RegimeRow.created_at x)%Z).
  pose proof (stable_sort_perm before (meta_regime_analysis s)) as Hperm.
  assert (Hsorted : StronglySorted (fun a b => before a b = true)
                      (stable_sort before (meta_regime_analysis s))).
  { apply stable_sort_sorted; unfold before.
    - intros x y H. apply Z.leb_le. apply Z.leb_gt in H. lia.
    - intros x y z. rewrite !Z.leb_le. lia. }
  destruct (stable_sort before (meta_regime_analysis s)) as [| r l] eqn:Hs.
  { exfalso. apply Hne. now apply (stable_sort_nil before). }
  eexists. exists r. split; [reflexivity |].
  cbn [hd_error Summary.current_regime Summary.regime_confidence fst].
  split; [eapply Permutation_in; [apply Permutation_sym, Hperm | now left] |].
  split; [reflexivity |]. split; [reflexivity |].
  intros r' Hin. apply (Permutation_in _ Hperm) in Hin.
  destruct Hin as [<- | Hin]; [lia |].
  inversion Hsorted as [| ? ? _ Hall]; subst.
  rewrite Forall_forall in Hall. specialize (Hall r' Hin).
  unfold before in Hall. now apply Z.leb_le.
Qed.

Lemma summary_reports_latest_regime_witness :
  exists p r,
    run get_meta_evaluation_summary (world_of (1 # 2) (Ok stocked)) = Ok p /\
    In r (meta_regime_analysis stocked) /\
    Summary.current_regime p = RegimeRow.regime r.
Proof.
  destruct (summary_reports_latest_regime (world_of (1 # 2) (Ok stocked))
              stocked eq_refl)
    as (p & r & Hrun & Hin & Hreg & _).
  - discriminate.
  - exists p, r. repeat split; assumption.
Defined.

(** X16.  With a readable store the summary lists at most ten agents, all ranked
    for the reported regime and in ascending rank order, and at most five
    rotation decisions, newest first. *)
Theorem summary_lists_bounded_and_ordered :
  forall (w : World) (s : Store),
    db w = Ok s ->
    exists p ranked_rows rotation_rows,
      run get_meta_evaluation_summary w = Ok p /\
      Summary.top_agents p = map top_agent_of ranked_rows /\
      (length ranked_rows <= 10)%nat /\
      Forall (fun r => In r (meta_agent_rankings s) /\
                       RankingRow.regime r = Summary.current_regime p)
             ranked_rows /\
      StronglySorted Z.le (map RankingRow.rank ranked_rows) /\
      Summary.recent_rotations p = map recent_rotation_of rotation_rows /\
      (length rotation_rows <= 5)%nat /\
      Forall (fun r => In r (meta_rotation_decisions s)) rotation_rows /\
      StronglySorted (fun a b => (b <= a)%Z)
        (map RotationRow.created_at rotation_rows).
Proof.
  intros w s Hdb. unfold run. rewrite (summary_run_up w s Hdb).
  eexists. eexists. eexists. split; [reflexivity |].
  unfold summary_from.
  cbn [fst Summary.top_agents Summary.recent_rotations Summary.current_regime].
  split; [reflexivity |].
  split; [apply firstn_le_length |].
  split.
  { apply Forall_forall. intros r Hr. unfold select_rankings in Hr.
    apply In_firstn in Hr.
    eapply Permutation_in in Hr; [| apply Permutation_sym, stable_sort_perm].
    apply filter_In in Hr. destruct Hr as [Hin Heq].
    split; [exact Hin | now apply String.eqb_eq]. }
  split.
  { unfold select_rankings. rewrite <- firstn_map.
    apply StronglySorted_firstn, StronglySorted_map.
    eapply StronglySorted_weaken; [| apply stable_sort_sorted].
    - intros a b H. now apply Z.leb_le.
    - intros x y H. apply Z.leb_le. apply Z.leb_gt in H. lia.
    - intros x y z. rewrite !Z.leb_le. lia. }
  split; [reflexivity |].
  split; [apply firstn_le_length |].
  split.
  { apply Forall_forall. intros r Hr. unfold select_recent_rotations in Hr.
    apply In_firstn in Hr.
    eapply Permutation_in; [apply Permutation_sym, stable_sort_perm | exact Hr]. }
  unfold select_recent_rotations. rewrite <- firstn_map.
  apply StronglySorted_firstn, StronglySorted_map.
  eapply StronglySorted_weaken; [| apply stable_sort_sorted].
  - intros a b H. now apply Z.leb_le.
  - intros x y H. apply Z.leb_le. apply Z.leb_gt in H. lia.
  - intros x y z. rewrite !Z.leb_le. lia.
Qed.

Lemma summary_lists_bounded_and_ordered_witness :
  exists p,
    run get_meta_evaluation_summary (world_of (1 # 2) (Ok stocked)) = Ok p /\
    (length (Summary.top_agents p) <= 10)%nat.
Proof.
  destruct (summary_lists_bounded_and_ordered (world_of (1 # 2) (Ok stocked))
              stocked eq_refl)
    as (p & rows & rots & Hrun & Htop & Hlen & _).
  exists p. split; [exact Hrun |]. rewrite Htop, length_map. exact Hlen.
Defined.

(** Two reads of the summary, one after the other. *)
Definition two_summaries : M (Summary.t * Summary.t) :=
  first <- get_meta_evaluation_summary ;;
  second <- get_meta_evaluation_summary ;;
  ret (first, second).


(** Two reads of the same store at different times are not the same
    payload. *)
Example consecutive_summaries_differ :
  exists first second,
    run two_summaries (world_of (1 # 2) (Ok stocked)) = Ok (first, second) /\
    Summary.last_updated first = "2026-11-04T09:44:05.000001"%string /\
    Summary.last_updated second = "2026-11-04T09:44:05.000003"%string /\
    first <> second.
Proof.
  eexists. eexists. split; [vm_compute; reflexivity |].
  split; [vm_compute; reflexivity |]. split; [vm_compute; reflexivity |].
  intros H. apply (f_equal Summary.last_updated) in H.
  vm_compute in H. discriminate H.
Qed.

(** ** Persistence *)

Definition with_db (w : World) (s : Store) : World :=
  {| random_tape := random_tape w; random_pos := random_pos w;
     clock_tape := clock_tape w; clock_pos := clock_pos w;
     spy_history := spy_history w; db := Ok s |}.

(** [await conn.execute(...)] of a statement that turns the tables [s] into
    [f s]. *)
Definition execute (f : Store -> Store) : M unit := fun w =>
  match db w with
  | Ok s => (Ok tt, with_db w (f s))
  | Raised e => (Raised e, w)
  end.

(** [INSERT INTO meta_agent_performance (...) VALUES ($1, ..., $10)] *)
Definition insert_performance (performance : AgentPerformance.t) (s : Store)
  : Store :=
  {| agent_signals := agent_signals s;
     meta_agent_performance :=
       meta_agent_performance s ++
       [ PerfRow.mk
           (AgentPerformance.agent_name performance)
           (AgentPerformance.accuracy performance)
           (AgentPerformance.sharpe_ratio performance)
           (AgentPerformance.total_return performance)
           (AgentPerformance.max_drawdown performance)
           (AgentPerformance.win_rate performance)
           (AgentPerformance.confidence performance)
           (AgentPerformance.response_time performance)
           (AgentPerformance.regime performance)
           (AgentPerformance.timestamp performance) ];
     meta_regime_analysis := meta_regime_analysis s;
     meta_agent_rankings := meta_agent_rankings s;
     meta_rotation_decisions := meta_rotation_decisions s |}.

Definition _store_agent_performance (performance : AgentPerformance.t)
  : M unit :=
  try_except
    (_ <- acquire ;; execute (insert_performance performance))
    (fun _ => ret tt).

(** [DELETE FROM meta_agent_rankings WHERE regime = $1] *)
Definition delete_rankings (regime : string) (s : Store) : Store :=
  {| agent_signals := agent_signals s;
     meta_agent_performance := meta_agent_performance s;
     meta_regime_analysis := meta_regime_analysis s;
     meta_agent_rankings :=
       filter (fun r => negb (String.eqb (RankingRow.regime r) regime))
              (meta_agent_rankings s);
     meta_rotation_decisions := meta_rotation_decisions s |}.

(** [INSERT INTO meta_agent_rankings (...) VALUES ($1, ..., $12)]; the table
    is kept at the columns the service reads back. *)
Definition insert_ranking (ranking : Ranking.t) (regime : string) (rank : Z)
  (t : Z) (s : Store) : Store :=
  {| agent_signals := agent_signals s;
     meta_agent_performance := meta_agent_performance s;
     meta_regime_analysis := meta_regime_analysis s;
     meta_agent_rankings :=
       meta_agent_rankings s ++
       [ RankingRow.mk (Ranking.agent_name ranking) regime rank
           (Ranking.composite_score ranking) (Ranking.accuracy ranking) t ];
     meta_rotation_decisions := meta_rotation_decisions s |}.

(** [ranking['rank']] *)
Definition getitem_rank (ranking : Ranking.t) : Outcome Z :=
  match Ranking.rank ranking with
  | Some k => Ok k
  | None => Raised "KeyError"
  end.

(** The loop [for ranking in rankings: await conn.execute(INSERT ...)]. *)
Fixpoint insert_rankings (rankings : list Ranking.t) (regime : string)
  : M unit :=
  match rankings with
  | [] => ret tt
  | ranking :: rest =>
      rank <- lift (getitem_rank ranking) ;;
      t <- now ;;
      _ <- execute (insert_ranking ranking regime rank t) ;;
      insert_rankings rest regime
  end.

Definition _store_agent_rankings (rankings : list Ranking.t) (regime : string)
  : M unit :=
  try_except
    (_ <- acquire ;;
     _ <- execute (delete_rankings regime) ;;
     insert_rankings rankings regime)
    (fun _ => ret tt).

(** [INSERT INTO meta_rotation_decisions (...) VALUES ($1, ..., $8)] *)
Definition insert_rotation (decision : RotationDecision.t) (s : Store)
  : Store :=
  {| agent_signals := agent_signals s;
     meta_agent_performance := meta_agent_performance s;
     meta_regime_analysis := meta_regime_analysis s;
     meta_agent_rankings := meta_agent_rankings s;
     meta_rotation_decisions :=
       meta_rotation_decisions s ++
       [ RotationRow.mk
           (RotationDecision.decision_id decision)
           (RotationDecision.from_agent decision)
           (RotationDecision.to_agent decision)
           (RotationDecision.reason decision)
           (RotationDecision.confidence decision)
           (RotationDecision.expected_improvement decision)
           (RotationDecision.regime decision)
           (RotationDecision.timestamp decision) ] |}.

Definition _store_rotation_decision (decision : RotationDecision.t)
  : M unit :=
  try_except
    (_ <- acquire ;; execute (insert_rotation decision))
    (fun _ => ret tt).

(** [INSERT INTO meta_regime_analysis (...) VALUES ($1, ..., $8)]; the table
    is kept at the columns the service reads back. *)
Definition insert_regime (analysis : RegimeAnalysis.t) (s : Store) : Store :=
  {| agent_signals := agent_signals s;
     meta_agent_performance := meta_agent_performance s;
     meta_regime_analysis :=
       meta_regime_analysis s ++
       [ RegimeRow.mk (RegimeAnalysis.regime analysis)
           (RegimeAnalysis.confidence analysis)
           (RegimeAnalysis.timestamp analysis) ];
     meta_agent_rankings := meta_agent_rankings s;
     meta_rotation_decisions := meta_rotation_decisions s |}.

Definition _store_regime_analysis (analysis : RegimeAnalysis.t) : M unit :=
  try_except
    (_ <- acquire ;; execute (insert_regime analysis))
    (fun _ => ret tt).

(** ** One pass of each background loop

    The body of the [try] of each [while self.is_running] loop, without the
    log line and the sleep. *)

(** [self.regimes] *)
Definition regimes : list string :=
  [ "bull"; "bear"; "neutral"; "volatile"; "trending" ]%string.

(** [for agent in self.agents: ...] *)
Fixpoint collect_each (market_regime : string) (roster : list string)
  : M unit :=
  match roster with
  | [] => ret tt
  | agent :: rest =>
      performance <- _calculate_agent_performance agent market_regime ;;
      _ <- _store_agent_performance performance ;;
      collect_each market_regime rest
  end.

(** [for regime in self.regimes: ...] *)
Fixpoint rank_each (todo : list string) : M unit :=
  match todo with
  | [] => ret tt
  | regime :: rest =>
      rankings <- _calculate_regime_rankings regime ;;
      _ <- _store_agent_rankings rankings regime ;;
      rank_each rest
  end.

Section Cycles.

Variable sqrt : Q -> Q.

Definition collect_agent_performance_pass : M unit :=
  try_except
    (market_regime <- _detect_market_regime sqrt ;;
     collect_each market_regime agents)
    (fun _ => ret tt).

Definition analyze_agent_rankings_pass : M unit :=
  try_except (rank_each regimes) (fun _ => ret tt).

Definition make_rotation_decisions_pass : M unit :=
  try_except
    (current_regime <- _detect_market_regime sqrt ;;
     rotation_decision <- _evaluate_rotation_need current_regime ;;
     match rotation_decision with
     | Some decision => _store_rotation_decision decision
     | None => ret tt
     end)
    (fun _ => ret tt).

Definition update_regime_analysis_pass : M unit :=
  try_except
    (regime_analysis <- _analyze_market_regime sqrt ;;
     _store_regime_analysis regime_analysis)
    (fun _ => ret tt).

End Cycles.

(** *** Concrete runs *)

Example store_then_rank :
  match (p <- _calculate_agent_performance "RiskAgent" "bull" ;;
         _ <- _store_agent_performance p ;;
         _calculate_regime_rankings "bull")
          (world_of (1 # 2) (Ok three_signals)) with
  | (Ok [r], w') =>
      Ranking.agent_name r = "RiskAgent"%string /\
      Ranking.rank r = Some 1%Z /\
      Ranking.accuracy r == 2 # 3
  | _ => False
  end.
Proof. vm_compute. tauto. Qed.

Example rankings_pass_fills_every_regime :
  match analyze_agent_rankings_pass (world_of (1 # 2) (Ok two_cycles)) with
  | (Ok tt, w') =>
      match db w' with
      | Ok s =>
          map (fun regime => length (select_rankings s regime)) regimes
          = [4; 10; 10; 10; 10]%nat
      | Raised _ => False
      end
  | _ => False
  end.
Proof. vm_compute. reflexivity. Qed.

(** ** What the computations leave of the store *)

(** A computation that leaves the store as it found it. *)
Definition keeps_db {A} (c : M A) : Prop :=
  forall w, db (snd (c w)) = db w.

Lemma keeps_db_ret {A} (a : A) : keeps_db (ret a).
Proof. intros w. reflexivity. Qed.

Lemma keeps_db_lift {A} (o : Outcome A) : keeps_db (lift o).
Proof. intros w. reflexivity. Qed.

Lemma keeps_db_random : keeps_db random.
Proof. intros w. reflexivity. Qed.

Lemma keeps_db_now : keeps_db now.
Proof. intros w. reflexivity. Qed.

Lemma keeps_db_history : keeps_db history.
Proof. intros w. reflexivity. Qed.

Lemma keeps_db_acquire : keeps_db acquire.
Proof. intros w. reflexivity. Qed.

Lemma keeps_db_bind {A B} (c : M A) (k : A -> M B) :
  keeps_db c -> (forall a, keeps_db (k a)) -> keeps_db (bind c k).
Proof.
  intros Hc Hk w. unfold bind. specialize (Hc w).
  destruct (c w) as [[a | e] w']; cbn [snd] in *.
  - rewrite (Hk a w'). exact Hc.
  - exact Hc.
Qed.

Lemma keeps_db_try {A} (c : M A) (h : string -> M A) :
  keeps_db c -> (forall e, keeps_db (h e)) -> keeps_db (try_except c h).
Proof.
  intros Hc Hh w. unfold try_except. specialize (Hc w).
  destruct (c w) as [[a | e] w']; cbn [snd] in *.
  - exact Hc.
  - rewrite (Hh e w'). exact Hc.
Qed.

Lemma keeps_db_uniform a b : keeps_db (uniform a b).
Proof.
  apply keeps_db_bind; [apply keeps_db_random | intros u; apply keeps_db_ret].
Qed.

Create HintDb keeps.
#[local] Hint Resolve keeps_db_ret keeps_db_lift keeps_db_random keeps_db_now
  keeps_db_history keeps_db_acquire keeps_db_uniform : keeps.

Ltac keeps :=
  repeat first
    [ apply keeps_db_bind; [| intro]
    | apply keeps_db_try; [| intro]
    | solve [auto with keeps] ].

Lemma keeps_db_detect sqrt : keeps_db (_detect_market_regime sqrt).
Proof.
  unfold _detect_market_regime. keeps.
  match goal with |- keeps_db (match ?h with _ => _ end) => destruct h end;
    keeps.
Qed.

Lemma keeps_db_fallback_regime : keeps_db _get_fallback_regime_analysis.
Proof. unfold _get_fallback_regime_analysis. keeps. Qed.

Lemma keeps_db_analyze sqrt : keeps_db (_analyze_market_regime sqrt).
Proof.
  unfold _analyze_market_regime.
  apply keeps_db_try; [| intro; apply keeps_db_fallback_regime].
  apply keeps_db_bind; [auto with keeps | intros hist].
  destruct hist; [apply keeps_db_fallback_regime |]. keeps.
Qed.

Lemma keeps_db_performance agent regime :
  keeps_db (_calculate_agent_performance agent regime).
Proof.
  unfold _calculate_agent_performance, performance_body, fetch_predictions.
  keeps.
  match goal with |- keeps_db (match ?l with _ => _ end) => destruct l end.
  - unfold fallback_metrics. keeps.
  - unfold metrics_from_predictions. keeps.
Qed.

Lemma keeps_db_fallback_entries roster : forall i,
  keeps_db (fallback_entries i roster).
Proof.
  induction roster as [| agent rest IH]; intros i; cbn [fallback_entries].
  - keeps.
  - apply keeps_db_bind; [auto with keeps | intros base].
    apply keeps_db_bind; [auto with keeps | intros rt].
    apply keeps_db_bind; [apply IH | intros rs]. keeps.
Qed.

Lemma keeps_db_fallback_rankings regime :
  keeps_db (_get_fallback_rankings regime).
Proof.
  unfold _get_fallback_rankings.
  apply keeps_db_bind; [apply keeps_db_fallback_entries | intros rs]. keeps.
Qed.

Lemma keeps_db_rankings regime : keeps_db (_calculate_regime_rankings regime).
Proof.
  unfold _calculate_regime_rankings, fetch_performances.
  apply keeps_db_try; [| intro; apply keeps_db_fallback_rankings].
  apply keeps_db_bind; [keeps | intros performances].
  destruct performances; [apply keeps_db_fallback_rankings | keeps].
Qed.

Lemma keeps_db_rotation_decision active rankings regime :
  keeps_db (rotation_decision active rankings regime).
Proof.
  intros w.
  destruct (rotation_decision_cases active rankings regime w)
    as [H | (best & rest & worst & first & _ & _ & _ & _ & _ & _ & _ & H)];
    rewrite H; reflexivity.
Qed.

Lemma keeps_db_evaluate regime : keeps_db (_evaluate_rotation_need regime).
Proof.
  unfold _evaluate_rotation_need.
  apply keeps_db_try; [| intro; apply keeps_db_ret].
  apply keeps_db_bind; [apply keeps_db_rankings | intros rankings].
  apply keeps_db_rotation_decision.
Qed.

(** *** How the writes run *)

Lemma execute_up f w s : db w = Ok s -> execute f w = (Ok tt, with_db w (f s)).
Proof. intros H. unfold execute. now rewrite H. Qed.

Lemma store_up (f : Store -> Store) w s :
  db w = Ok s ->
  try_except (_ <- acquire ;; execute f) (fun _ => ret tt) w
  = (Ok tt, with_db w (f s)).
Proof.
  intros H. erewrite try_ok; [reflexivity |].
  erewrite bind_ok; [| unfold acquire; rewrite H; reflexivity].
  now apply execute_up.
Qed.

Lemma store_down (f : Store -> Store) w e :
  db w = Raised e ->
  try_except (_ <- acquire ;; execute f) (fun _ => ret tt) w = (Ok tt, w).
Proof.
  intros H. erewrite try_raised; [reflexivity |].
  erewrite bind_raised; [reflexivity |].
  unfold acquire. now rewrite H.
Qed.

(** The rows the insertion loop writes, the first one at clock position
    [pos]. *)
Fixpoint ranking_rows (rankings : list Ranking.t) (regime : string)
  (clock : nat -> Z) (pos : nat) : list RankingRow.t :=
  match rankings with
  | [] => []
  | r :: rest =>
      RankingRow.mk (Ranking.agent_name r) regime
        (match Ranking.rank r with Some k => k | None => 0%Z end)
        (Ranking.composite_score r) (Ranking.accuracy r) (clock pos)
      :: ranking_rows rest regime clock (S pos)
  end.

Definition add_rankings (rows : list RankingRow.t) (s : Store) : Store :=
  {| agent_signals := agent_signals s;
     meta_agent_performance := meta_agent_performance s;
     meta_regime_analysis := meta_regime_analysis s;
     meta_agent_rankings := meta_agent_rankings s ++ rows;
     meta_rotation_decisions := meta_rotation_decisions s |}.

Lemma add_rankings_nil s : add_rankings [] s = s.
Proof. destruct s. unfold add_rankings. cbn. now rewrite app_nil_r. Qed.

Lemma insert_rankings_run rankings regime : forall w s,
  db w = Ok s ->
  Forall (fun r => Ranking.rank r <> None) rankings ->
  exists w',
    insert_rankings rankings regime w = (Ok tt, w') /\
    db w'
    = Ok (add_rankings
            (ranking_rows rankings regime (clock_tape w) (clock_pos w)) s).
Proof.
  induction rankings as [| r rest IH]; intros w s Hdb Hranks.
  - exists w. split; [reflexivity |].
    cbn [ranking_rows]. now rewrite add_rankings_nil.
  - inversion Hranks as [| ? ? Hr Hrest]; subst.
    destruct (Ranking.rank r) as [k |] eqn:Hk; [| contradiction].
    cbn [insert_rankings].
    erewrite bind_ok;
      [| unfold lift, getitem_rank; rewrite Hk; reflexivity].
    erewrite bind_ok; [| reflexivity].
    erewrite bind_ok; [| apply (execute_up _ _ s); exact Hdb].
    destruct (IH (with_db (snd (now w))
                    (insert_ranking r regime k (clock_tape w (clock_pos w)) s))
                 _ eq_refl Hrest) as (w' & Hrun & Hdb').
    exists w'. split; [exact Hrun |]. rewrite Hdb'.
    cbn [ranking_rows]. rewrite Hk. f_equal.
    unfold add_rankings, insert_ranking. cbn. f_equal.
    now rewrite <- app_assoc.
Qed.

Lemma store_agent_rankings_run rankings regime w s :
  db w = Ok s ->
  Forall (fun r => Ranking.rank r <> None) rankings ->
  exists w',
    _store_agent_rankings rankings regime w = (Ok tt, w') /\
    db w'
    = Ok (add_rankings
            (ranking_rows rankings regime (clock_tape w) (clock_pos w))
            (delete_rankings regime s)).
Proof.
  intros Hdb Hranks.
  destruct (insert_rankings_run rankings regime
              (with_db w (delete_rankings regime s)) _ eq_refl Hranks)
    as (w' & Hrun & Hdb').
  exists w'. split; [| exact Hdb'].
  unfold _store_agent_rankings.
  erewrite try_ok; [reflexivity |].
  erewrite bind_ok; [| unfold acquire; rewrite Hdb; reflexivity].
  erewrite bind_ok; [| apply (execute_up _ _ s); exact Hdb].
  exact Hrun.
Qed.

Lemma ranking_rows_regime rankings regime clock pos :
  Forall (fun row => RankingRow.regime row = regime)
         (ranking_rows rankings regime clock pos).
Proof.
  revert pos. induction rankings as [| r rest IH]; intros pos;
    cbn [ranking_rows]; constructor; [reflexivity | apply IH].
Qed.

Lemma filter_all {A} (p : A -> bool) l :
  Forall (fun x => p x = true) l -> filter p l = l.
Proof.
  induction 1 as [| x l Hx Hl IH]; simpl; [reflexivity |].
  now rewrite Hx, IH.
Qed.

Lemma filter_none {A} (p : A -> bool) l :
  Forall (fun x => p x = false) l -> filter p l = [].
Proof.
  induction 1 as [| x l Hx Hl IH]; simpl; [reflexivity |].
  now rewrite Hx, IH.
Qed.

Lemma filter_filter_neg (regime other : string) (l : list RankingRow.t) :
  other <> regime ->
  filter (fun r => String.eqb (RankingRow.regime r) other)
    (filter (fun r => negb (String.eqb (RankingRow.regime r) regime)) l)
  = filter (fun r => String.eqb (RankingRow.regime r) other) l.
Proof.
  intros Hne. induction l as [| r l IH]; simpl; [reflexivity |].
  destruct (String.eqb (RankingRow.regime r) regime) eqn:E1; simpl.
  - apply String.eqb_eq in E1.
    destruct (String.eqb (RankingRow.regime r) other) eqn:E2;
      [apply String.eqb_eq in E2; congruence | exact IH].
  - destruct (String.eqb (RankingRow.regime r) other); now rewrite IH.
Qed.

Lemma filter_deleted (regime : string) (l : list RankingRow.t) :
  filter (fun r => String.eqb (RankingRow.regime r) regime)
    (filter (fun r => negb (String.eqb (RankingRow.regime r) regime)) l) = [].
Proof.
  induction l as [| r l IH]; simpl; [reflexivity |].
  destruct (String.eqb (RankingRow.regime r) regime) eqn:E; simpl;
    [exact IH | now rewrite E].
Qed.

(** The rows of [regime] after a store are the new rows; the rows of every
    other regime are those of before. *)
Lemma stored_rankings_of (rankings : list Ranking.t) regime clock pos s other :
  filter (fun r => String.eqb (RankingRow.regime r) other)
    (meta_agent_rankings
       (add_rankings (ranking_rows rankings regime clock pos)
          (delete_rankings regime s)))
  = if String.eqb other regime
    then ranking_rows rankings regime clock pos
    else filter (fun r => String.eqb (RankingRow.regime r) other)
           (meta_agent_rankings s).
Proof.
  cbn [add_rankings delete_rankings meta_agent_rankings].
  rewrite filter_app.
  destruct (String.eqb other regime) eqn:E.
  - apply String.eqb_eq in E. subst other.
    rewrite filter_deleted, filter_all; [reflexivity |].
    eapply Forall_impl; [| apply ranking_rows_regime].
    intros row Hrow. cbv beta. rewrite Hrow. apply String.eqb_refl.
  - apply String.eqb_neq in E. rewrite filter_filter_neg by exact E.
    rewrite (filter_none _ (ranking_rows rankings regime clock pos));
      [apply app_nil_r |].
    eapply Forall_impl; [| apply ranking_rows_regime].
    intros row Hrow. cbv beta. rewrite Hrow. apply String.eqb_neq.
    congruence.
Qed.

Lemma ranking_rows_columns rankings regime clock pos :
  Forall (fun r => Ranking.rank r <> None) rankings ->
  map (fun row => (RankingRow.agent_name row, Some (RankingRow.rank row),
                   RankingRow.composite_score row, RankingRow.accuracy row))
      (ranking_rows rankings regime clock pos)
  = map (fun r => (Ranking.agent_name r, Ranking.rank r,
                   Ranking.composite_score r, Ranking.accuracy r))
        rankings.
Proof.
  intros H. revert pos. induction H as [| r l Hr Hl IH]; intros pos;
    cbn [ranking_rows map]; [reflexivity |].
  rewrite IH. destruct (Ranking.rank r); [reflexivity | contradiction].
Qed.

(** *** Properties of the writes *)

(** X18.  Storing a ranking replaces the ranking of its regime: afterwards the
    rows of that regime are exactly the entries just stored, in their
    order, with their agents, ranks, scores and accuracies; the rows of
    every other regime and all other tables are as before. *)
Theorem store_rankings_replaces :
  forall (rankings : list Ranking.t) (regime : string) (w : World) (s : Store),
    db w = Ok s ->
    Forall (fun r => Ranking.rank r <> None) rankings ->
    exists w' s',
      _store_agent_rankings rankings regime w = (Ok tt, w') /\
      db w' = Ok s' /\
      map (fun row => (RankingRow.agent_name row, Some (RankingRow.rank row),
                       RankingRow.composite_score row, RankingRow.accuracy row))
          (filter (fun r => String.eqb (RankingRow.regime r) regime)
                  (meta_agent_rankings s'))
      = map (fun r => (Ranking.agent_name r, Ranking.rank r,
                       Ranking.composite_score r, Ranking.accuracy r))
            rankings /\
      (forall other, other <> regime ->
         filter (fun r => String.eqb (RankingRow.regime r) other)
                (meta_agent_rankings s')
         = filter (fun r => String.eqb (RankingRow.regime r) other)
                  (meta_agent_rankings s)) /\
      meta_agent_performance s' = meta_agent_performance s /\
      meta_regime_analysis s' = meta_regime_analysis s /\
      meta_rotation_decisions s' = meta_rotation_decisions s /\
      agent_signals s' = agent_signals s.
Proof.
  intros rankings regime w s Hdb Hranks.
  destruct (store_agent_rankings_run rankings regime w s Hdb Hranks)
    as (w' & Hrun & Hdb').
  exists w'. eexists. split; [exact Hrun |]. split; [exact Hdb' |].
  split.
  { rewrite stored_rankings_of, String.eqb_refl.
    now apply ranking_rows_columns. }
  split.
  { intros other Hne. rewrite stored_rankings_of.
    apply String.eqb_neq in Hne. now rewrite Hne. }
  repeat split.
Qed.

Lemma store_rankings_replaces_witness :
  exists w' s',
    _store_agent_rankings three_ranked "bull" (world_of (1 # 2) (Ok stocked))
    = (Ok tt, w') /\
    db w' = Ok s' /\
    map RankingRow.agent_name
        (filter (fun r => String.eqb (RankingRow.regime r) "bull")
                (meta_agent_rankings s'))
    = map Ranking.agent_name three_ranked /\
    filter (fun r => String.eqb (RankingRow.regime r) "bear")
           (meta_agent_rankings s')
    = filter (fun r => String.eqb (RankingRow.regime r) "bear")
             (meta_agent_rankings stocked).
Proof.
  destruct (store_rankings_replaces three_ranked "bull"
              (world_of (1 # 2) (Ok stocked)) stocked eq_refl)
    as (w' & s' & Hrun & Hdb & Hnew & Hold & _).
  - repeat constructor; discriminate.
  - exists w', s'. split; [exact Hrun |]. split; [exact Hdb |]. split.
    + apply (f_equal (map (fun t => fst (fst (fst t))))) in Hnew.
      rewrite !map_map in Hnew. exact Hnew.
    + apply Hold. discriminate.
Defined.

Lemma insert_rankings_key_error prefix bad rest regime : forall w s,
  db w = Ok s ->
  Forall (fun r => Ranking.rank r <> None) prefix ->
  Ranking.rank bad = None ->
  exists w',
    insert_rankings (prefix ++ bad :: rest) regime w
    = (Raised "KeyError", w') /\
    db w'
    = Ok (add_rankings
            (ranking_rows prefix regime (clock_tape w) (clock_pos w)) s).
Proof.
  induction prefix as [| r l IH]; intros w s Hdb Hranks Hbad.
  - exists w. cbn [app insert_rankings ranking_rows].
    rewrite add_rankings_nil. split; [| exact Hdb].
    erewrite bind_raised; [reflexivity |].
    unfold lift, getitem_rank. rewrite Hbad. reflexivity.
  - inversion Hranks as [| ? ? Hr Hl]; subst.
    destruct (Ranking.rank r) as [k |] eqn:Hk; [| contradiction].
    cbn [app insert_rankings].
    erewrite bind_ok;
      [| unfold lift, getitem_rank; rewrite Hk; reflexivity].
    erewrite bind_ok; [| reflexivity].
    erewrite bind_ok; [| apply (execute_up _ _ s); exact Hdb].
    destruct (IH (with_db (snd (now w))
                    (insert_ranking r regime k (clock_tape w (clock_pos w)) s))
                 _ eq_refl Hl Hbad) as (w' & Hrun & Hdb').
    exists w'. split; [exact Hrun |]. rewrite Hdb'.
    cbn [ranking_rows]. rewrite Hk. f_equal.
    unfold add_rankings, insert_ranking. cbn. f_equal.
    now rewrite <- app_assoc.
Qed.

(** X19.  The replacement is not atomic.  When an entry has no rank, the store
    has already deleted the regime's rows and inserted the entries that
    came before it: those are all the regime is left with, and nothing is
    raised. *)
Theorem store_rankings_stops_at_missing_rank :
  forall (prefix : list Ranking.t) (bad : Ranking.t) (rest : list Ranking.t)
         (regime : string) (w : World) (s : Store),
    db w = Ok s ->
    Forall (fun r => Ranking.rank r <> None) prefix ->
    Ranking.rank bad = None ->
    exists w' s',
      _store_agent_rankings (prefix ++ bad :: rest) regime w = (Ok tt, w') /\
      db w' = Ok s' /\
      map RankingRow.agent_name
          (filter (fun r => String.eqb (RankingRow.regime r) regime)
                  (meta_agent_rankings s'))
      = map Ranking.agent_name prefix.
Proof.
  intros prefix bad rest regime w s Hdb Hranks Hbad.
  destruct (insert_rankings_key_error prefix bad rest regime
              (with_db w (delete_rankings regime s)) _ eq_refl Hranks Hbad)
    as (w' & Hrun & Hdb').
  exists w'. eexists. split; [| split; [exact Hdb' |]].
  - unfold _store_agent_rankings.
    erewrite try_raised; [reflexivity |].
    erewrite bind_ok; [| unfold acquire; rewrite Hdb; reflexivity].
    erewrite bind_ok; [| apply (execute_up _ _ s); exact Hdb].
    exact Hrun.
  - rewrite stored_rankings_of, String.eqb_refl.
    pose proof (ranking_rows_columns prefix regime
                  (clock_tape (with_db w (delete_rankings regime s)))
                  (clock_pos (with_db w (delete_rankings regime s))) Hranks)
      as Hcols.
    apply (f_equal (map (fun t => fst (fst (fst t))))) in Hcols.
    rewrite !map_map in Hcols. exact Hcols.
Qed.

Lemma store_rankings_stops_at_missing_rank_witness :
  exists w' s',
    _store_agent_rankings
      ([Ranking.set_rank 1 (entry "RiskAgent" 0.9)]
         ++ entry "MomentumAgent" 0.8 :: [])
      "bull" (world_of (1 # 2) (Ok stocked))
    = (Ok tt, w') /\
    db w' = Ok s' /\
    map RankingRow.agent_name
        (filter (fun r => String.eqb (RankingRow.regime r) "bull")
                (meta_agent_rankings s'))
    = ["RiskAgent"]%string.
Proof.
  apply (store_rankings_stops_at_missing_rank
           [Ranking.set_rank 1 (entry "RiskAgent" 0.9)]
           (entry "MomentumAgent" 0.8) [] "bull"
           (world_of (1 # 2) (Ok stocked)) stocked eq_refl).
  - repeat constructor; discriminate.
  - reflexivity.
Defined.

(** X20.  A write that cannot reach the store is dropped without a trace: each
    of the four store operations returns normally and leaves the world as
    it was. *)
Theorem failed_writes_are_silent :
  forall (w : World) (e : string),
    db w = Raised e ->
    (forall p, _store_agent_performance p w = (Ok tt, w)) /\
    (forall rankings regime,
       _store_agent_rankings rankings regime w = (Ok tt, w)) /\
    (forall d, _store_rotation_decision d w = (Ok tt, w)) /\
    (forall a, _store_regime_analysis a w = (Ok tt, w)).
Proof.
  intros w e Hdb. repeat split; intros.
  - apply (store_down _ w e Hdb).
  - unfold _store_agent_rankings.
    erewrite try_raised; [reflexivity |].
    erewrite bind_raised; [reflexivity |].
    unfold acquire. now rewrite Hdb.
  - apply (store_down _ w e Hdb).
  - apply (store_down _ w e Hdb).
Qed.

Lemma failed_writes_are_silent_witness :
  _store_rotation_decision
    (RotationDecision.mk "rotation_20261104_094405" "ForecastAgent"
       "RiskAgent" "Performance improvement: 30.00%" 0.6 0.3 "bull" 0)
    (world_of (1 # 2) (Raised "down"))
  = (Ok tt, world_of (1 # 2) (Raised "down")).
Proof.
  apply (failed_writes_are_silent (world_of (1 # 2) (Raised "down")) "down"
           eq_refl).
Defined.

(** ** The passes of the background loops *)

Lemma run_pair {A} (c : M A) w a :
  fst (c w) = Ok a -> c w = (Ok a, snd (c w)).
Proof. destruct (c w) as [o w']. cbn. now intros ->. Qed.

Lemma calculate_agent_performance_returns agent regime w :
  exists p w',
    _calculate_agent_performance agent regime w = (Ok p, w') /\
    db w' = db w /\
    AgentPerformance.agent_name p = agent /\
    AgentPerformance.regime p = regime.
Proof.
  pose proof (keeps_db_performance agent regime w) as Hdb.
  revert Hdb. unfold _calculate_agent_performance, try_except.
  destruct (performance_body agent regime w) as [[p | e] w1] eqn:Hbody.
  - intros Hdb. exists p, w1. split; [reflexivity |]. split; [exact Hdb |].
    revert Hbody. unfold performance_body, bind.
    destruct (fetch_predictions agent w) as [[ps | e1] w2]; [| discriminate].
    destruct (match ps with
              | [] => fallback_metrics
              | _ :: _ => metrics_from_predictions ps
              end w2) as [[m | e2] w3]; [| discriminate].
    cbn. intros H. injection H as <- _. split; reflexivity.
  - intros Hdb. eexists. eexists. split; [reflexivity |].
    split; [exact Hdb |]. split; reflexivity.
Qed.

Lemma store_agent_performance_run p w s :
  db w = Ok s ->
  _store_agent_performance p w = (Ok tt, with_db w (insert_performance p s)).
Proof. apply store_up. Qed.

Lemma store_rotation_decision_run d w s :
  db w = Ok s ->
  _store_rotation_decision d w = (Ok tt, with_db w (insert_rotation d s)).
Proof. apply store_up. Qed.

Lemma store_regime_analysis_run a w s :
  db w = Ok s ->
  _store_regime_analysis a w = (Ok tt, with_db w (insert_regime a s)).
Proof. apply store_up. Qed.

Definition add_performances (rows : list PerfRow.t) (s : Store) : Store :=
  {| agent_signals := agent_signals s;
     meta_agent_performance := meta_agent_performance s ++ rows;
     meta_regime_analysis := meta_regime_analysis s;
     meta_agent_rankings := meta_agent_rankings s;
     meta_rotation_decisions := meta_rotation_decisions s |}.

Lemma collect_each_run market_regime roster : forall w s,
  db w = Ok s ->
  exists rows w',
    collect_each market_regime roster w = (Ok tt, w') /\
    db w' = Ok (add_performances rows s) /\
    map PerfRow.agent_name rows = roster /\
    Forall (fun r => PerfRow.regime r = market_regime) rows.
Proof.
  induction roster as [| agent rest IH]; intros w s Hdb.
  - exists [], w. split; [reflexivity |]. split; [| split; constructor].
    rewrite Hdb. destruct s. unfold add_performances. cbn.
    now rewrite app_nil_r.
  - destruct (calculate_agent_performance_returns agent market_regime w)
      as (p & w1 & Hcalc & Hdb1 & Hname & Hreg).
    rewrite Hdb in Hdb1.
    destruct (IH (with_db w1 (insert_performance p s)) _ eq_refl)
      as (rows & w' & Hrun & Hdb' & Hnames & Hregs).
    eexists (_ :: rows). exists w'. cbn [collect_each].
    rewrite (bind_ok _ _ _ _ _ Hcalc).
    rewrite (bind_ok _ _ _ _ _ (store_agent_performance_run p w1 s Hdb1)).
    split; [exact Hrun |]. split; [| split].
    + rewrite Hdb'. f_equal. unfold add_performances, insert_performance.
      cbn. f_equal. rewrite <- app_assoc. reflexivity.
    + cbn [map PerfRow.agent_name]. now rewrite Hname, Hnames.
    + constructor; [exact Hreg | exact Hregs].
Qed.

Lemma detect_returns sqrt w :
  exists m w',
    _detect_market_regime sqrt w = (Ok m, w') /\ db w' = db w.
Proof.
  pose proof (keeps_db_detect sqrt w) as Hdb. revert Hdb.
  unfold _detect_market_regime, try_except.
  match goal with
  | |- context [match ?c w with _ => _ end] =>
      destruct (c w) as [[m | e] w1]
  end; intros Hdb; eexists; eexists; split; try reflexivity; exact Hdb.
Qed.

(** X21.  One pass of the performance collection over a readable store appends
    exactly one row per agent of the roster, in roster order, all with the
    regime detected at the start of the pass, and touches no other table;
    it never raises. *)
Theorem collection_pass_appends_roster :
  forall (sqrt : Q -> Q) (w : World) (s : Store),
    db w = Ok s ->
    exists market_regime rows w' s',
      run (_detect_market_regime sqrt) w = Ok market_regime /\
      collect_agent_performance_pass sqrt w = (Ok tt, w') /\
      db w' = Ok s' /\
      meta_agent_performance s' = meta_agent_performance s ++ rows /\
      map PerfRow.agent_name rows = agents /\
      Forall (fun r => PerfRow.regime r = market_regime) rows /\
      meta_regime_analysis s' = meta_regime_analysis s /\
      meta_agent_rankings s' = meta_agent_rankings s /\
      meta_rotation_decisions s' = meta_rotation_decisions s /\
      agent_signals s' = agent_signals s.
Proof.
  intros sqrt w s Hdb.
  destruct (detect_returns sqrt w) as (m & w0 & Hdet & Hdb0).
  rewrite Hdb in Hdb0.
  destruct (collect_each_run m agents w0 s Hdb0)
    as (rows & w' & Hrun & Hdb' & Hnames & Hregs).
  exists m, rows, w'. eexists.
  split; [unfold run; now rewrite Hdet |].
  split.
  { unfold collect_agent_performance_pass.
    erewrite try_ok; [reflexivity |].
    rewrite (bind_ok _ _ _ _ _ Hdet). exact Hrun. }
  split; [exact Hdb' |]. cbn [add_performances meta_agent_performance
    meta_regime_analysis meta_agent_rankings meta_rotation_decisions
    agent_signals].
  repeat split; assumption.
Qed.

Lemma collection_pass_appends_roster_witness :
  exists market_regime rows w' s',
    run (_detect_market_regime sqrt6) (world_of (1 # 2) (Ok two_cycles))
    = Ok market_regime /\
    collect_agent_performance_pass sqrt6 (world_of (1 # 2) (Ok two_cycles))
    = (Ok tt, w') /\
    db w' = Ok s' /\
    meta_agent_performance s' = meta_agent_performance two_cycles ++ rows /\
    map PerfRow.agent_name rows = agents.
Proof.
  destruct (collection_pass_appends_roster sqrt6
              (world_of (1 # 2) (Ok two_cycles)) two_cycles eq_refl)
    as (m & rows & w' & s' & H1 & H2 & H3 & H4 & H5 & _).
  exists m, rows, w', s'. repeat split; assumption.
Defined.

Lemma calculate_regime_rankings_returns regime w :
  exists entries w',
    _calculate_regime_rankings regime w
    = (Ok (assign_ranks 0 (sort_by_score entries)), w') /\
    entries <> [] /\
    db w' = db w.
Proof.
  destruct (calculate_regime_rankings_run regime w)
    as (entries & w' & Hrun & Hsrc).
  exists entries, w'. split; [exact Hrun |]. split.
  - destruct Hsrc as [(s & _ & Hne & Hsc) | (w0 & Hfe & _)].
    + intros ->. apply Hne. apply length_zero_iff_nil.
      now rewrite <- (score_performances_length _ _ Hsc).
    + destruct (fallback_entries_run agents 0%Z w0)
        as (es & w1 & Hrun1 & Hn & _).
      rewrite Hrun1 in Hfe. injection Hfe as -> _.
      intros ->. discriminate Hn.
  - pose proof (keeps_db_rankings regime w) as Hdb.
    rewrite Hrun in Hdb. exact Hdb.
Qed.

Lemma assign_ranks_has_rank i l :
  Forall (fun r => Ranking.rank r <> None) (assign_ranks i l).
Proof.
  revert i. induction l as [| r l IH]; intros i; cbn [assign_ranks];
    constructor; [discriminate | apply IH].
Qed.

Lemma ranking_rows_length rankings regime clock pos :
  length (ranking_rows rankings regime clock pos) = length rankings.
Proof.
  revert pos. induction rankings as [| r l IH]; intros pos;
    cbn [ranking_rows length]; [| rewrite IH]; reflexivity.
Qed.

Lemma ranking_rows_scores rankings regime clock pos :
  map RankingRow.composite_score (ranking_rows rankings regime clock pos)
  = map Ranking.composite_score rankings.
Proof.
  revert pos. induction rankings as [| r l IH]; intros pos;
    cbn [ranking_rows map]; [| rewrite IH]; reflexivity.
Qed.

Lemma ranking_rows_ranks l regime clock : forall i pos,
  map RankingRow.rank (ranking_rows (assign_ranks i l) regime clock pos)
  = map (fun n => (i + Z.of_nat n)%Z) (seq 1 (length l)).
Proof.
  induction l as [| r l IH]; intros i pos; [reflexivity |].
  cbn [assign_ranks ranking_rows map length seq Ranking.rank Ranking.set_rank
       RankingRow.rank].
  rewrite <- (seq_shift (length l) 1), map_map, IH.
  f_equal. apply map_ext. intros n. lia.
Qed.

(** The rows of one regime form a ranking: there is at least one, the
    ranks are 1, 2, ..., N in storage order, and the scores never
    increase. *)
Definition well_ranked (rows : list RankingRow.t) : Prop :=
  rows <> [] /\
  map RankingRow.rank rows = map Z.of_nat (seq 1 (length rows)) /\
  StronglySorted (fun a b => b <= a) (map RankingRow.composite_score rows).

Lemma ranking_rows_well_ranked entries regime clock pos :
  entries <> [] ->
  well_ranked
    (ranking_rows (assign_ranks 0 (sort_by_score entries)) regime clock pos).
Proof.
  intros Hne. unfold well_ranked. split; [| split].
  - intros H. apply Hne. apply length_zero_iff_nil.
    apply (f_equal (@length _)) in H.
    rewrite ranking_rows_length, assign_ranks_length in H.
    unfold sort_by_score in H. now rewrite stable_sort_length in H.
  - rewrite ranking_rows_ranks, ranking_rows_length, assign_ranks_length.
    reflexivity.
  - rewrite ranking_rows_scores, assign_ranks_scores.
    apply sort_by_score_descending.
Qed.

Definition rows_of (regime : string) (s : Store) : list RankingRow.t :=
  filter (fun r => String.eqb (RankingRow.regime r) regime)
         (meta_agent_rankings s).

Lemma rank_each_run todo :
  NoDup todo ->
  forall w s,
    db w = Ok s ->
    exists w' s',
      rank_each todo w = (Ok tt, w') /\
      db w' = Ok s' /\
      (forall regime, In regime todo -> well_ranked (rows_of regime s')) /\
      (forall regime, ~ In regime todo -> rows_of regime s' = rows_of regime s) /\
      meta_agent_performance s' = meta_agent_performance s /\
      meta_regime_analysis s' = meta_regime_analysis s /\
      meta_rotation_decisions s' = meta_rotation_decisions s /\
      agent_signals s' = agent_signals s.
Proof.
  induction 1 as [| regime rest Hnotin Hnodup IH]; intros w s Hdb.
  - exists w, s. split; [reflexivity |]. split; [exact Hdb |].
    split; [intros r [] |]. repeat split.
  - destruct (calculate_regime_rankings_returns regime w)
      as (entries & w1 & Hcalc & Hne & Hdb1).
    rewrite Hdb in Hdb1.
    destruct (store_agent_rankings_run
                (assign_ranks 0 (sort_by_score entries)) regime w1 s Hdb1
                (assign_ranks_has_rank _ _))
      as (w2 & Hstore & Hdb2).
    destruct (IH w2 _ Hdb2)
      as (w' & s' & Hrun & Hdb' & Hin & Hout & Hp & Hr & Hd & Hs).
    exists w', s'. cbn [rank_each].
    rewrite (bind_ok _ _ _ _ _ Hcalc), (bind_ok _ _ _ _ _ Hstore).
    split; [exact Hrun |]. split; [exact Hdb' |].
    split; [| split].
    + intros r [<- | Hr'].
      * rewrite (Hout regime Hnotin). unfold rows_of.
        rewrite stored_rankings_of, String.eqb_refl.
        now apply ranking_rows_well_ranked.
      * now apply Hin.
    + intros r Hr'. rewrite Hout by (intros H; apply Hr'; now right).
      unfold rows_of. rewrite stored_rankings_of.
      destruct (String.eqb r regime) eqn:E; [| reflexivity].
      apply String.eqb_eq in E. exfalso. apply Hr'. now left.
    + rewrite Hp, Hr, Hd, Hs. repeat split.
Qed.

(** X22.  One pass of the ranking analysis over a readable store leaves, for each
    of the five regimes, a ranking in the table: at least one row, ranks
    1, 2, ..., N in storage order, scores never increasing.  Rows of any
    other regime and all other tables are untouched, and the pass never
    raises. *)
Theorem rankings_pass_ranks_every_regime :
  forall (w : World) (s : Store),
    db w = Ok s ->
    exists w' s',
      analyze_agent_rankings_pass w = (Ok tt, w') /\
      db w' = Ok s' /\
      (forall regime, In regime regimes -> well_ranked (rows_of regime s')) /\
      (forall regime, ~ In regime regimes ->
         rows_of regime s' = rows_of regime s) /\
      meta_agent_performance s' = meta_agent_performance s /\
      meta_regime_analysis s' = meta_regime_analysis s /\
      meta_rotation_decisions s' = meta_rotation_decisions s /\
      agent_signals s' = agent_signals s.
Proof.
  intros w s Hdb.
  assert (Hnodup : NoDup regimes).
  { unfold regimes. repeat constructor; cbn; intuition discriminate. }
  destruct (rank_each_run regimes Hnodup w s Hdb) as (w' & s' & Hrun & Hrest).
  exists w', s'. split; [| exact Hrest].
  unfold analyze_agent_rankings_pass.
  erewrite try_ok; [reflexivity | exact Hrun].
Qed.

Lemma rankings_pass_ranks_every_regime_witness :
  exists w' s',
    analyze_agent_rankings_pass (world_of (1 # 2) (Ok stocked)) = (Ok tt, w') /\
    db w' = Ok s' /\
    well_ranked (rows_of "volatile" s') /\
    meta_regime_analysis s' = meta_regime_analysis stocked.
Proof.
  destruct (rankings_pass_ranks_every_regime (world_of (1 # 2) (Ok stocked))
              stocked eq_refl)
    as (w' & s' & Hrun & Hdb & Hin & _ & _ & Hreg & _).
  exists w', s'. split; [exact Hrun |]. split; [exact Hdb |].
  split; [| exact Hreg].
  apply Hin. right. right. right. left. reflexivity.
Defined.

Lemma evaluate_rotation_need_returns current_regime w :
  exists o w',
    _evaluate_rotation_need current_regime w = (Ok o, w') /\
    db w' = db w /\
    forall d, o = Some d ->
      In (RotationDecision.from_agent d) current_agents /\
      ~ In (RotationDecision.to_agent d) current_agents /\
      RotationDecision.regime d = current_regime /\
      0.1 < RotationDecision.expected_improvement d.
Proof.
  pose proof (keeps_db_evaluate current_regime w) as Hdb.
  destruct (calculate_regime_rankings_run current_regime w)
    as (entries & w1 & Hcalc & _).
  rewrite (evaluate_rotation_need_run _ _ _ _ Hcalc) in Hdb |- *.
  destruct (rotation_decision_cases current_agents
              (assign_ranks 0 (sort_by_score entries)) current_regime w1)
    as [Hnone | (best & rest & worst & first & Hr & _ & Hw & _ & Hb & _
                 & Himp & Hrun)].
  - rewrite Hnone in Hdb |- *. exists None, w1.
    split; [reflexivity |]. split; [exact Hdb | discriminate].
  - rewrite Hrun in Hdb |- *. eexists. eexists.
    split; [reflexivity |]. split; [exact Hdb |].
    intros d Hd. injection Hd as <-. unfold decision_of.
    cbn [RotationDecision.from_agent RotationDecision.to_agent
         RotationDecision.regime RotationDecision.expected_improvement].
    destruct (find_worst_active_some _ _ _ Hw) as (Hin & _).
    split; [exact Hin |]. split; [| split; [reflexivity | exact Himp]].
    intros H. apply is_active_In in H. congruence.
Qed.

(** X23.  One pass of the rotation loop over a readable store appends at most
    one row to the rotation log; an appended row goes from one of the three
    active agents to an agent outside them, promises an improvement above
    0.10 and carries the regime detected at the start of the pass.  No
    other table changes and the pass never raises. *)
Theorem rotation_pass_appends_at_most_one :
  forall (sqrt : Q -> Q) (w : World) (s : Store),
    db w = Ok s ->
    exists current_regime w' s',
      run (_detect_market_regime sqrt) w = Ok current_regime /\
      make_rotation_decisions_pass sqrt w = (Ok tt, w') /\
      db w' = Ok s' /\
      (meta_rotation_decisions s' = meta_rotation_decisions s \/
       exists row,
         meta_rotation_decisions s' = meta_rotation_decisions s ++ [row] /\
         In (RotationRow.from_agent row) current_agents /\
         ~ In (RotationRow.to_agent row) current_agents /\
         RotationRow.regime row = current_regime /\
         0.1 < RotationRow.expected_improvement row) /\
      meta_agent_performance s' = meta_agent_performance s /\
      meta_regime_analysis s' = meta_regime_analysis s /\
      meta_agent_rankings s' = meta_agent_rankings s /\
      agent_signals s' = agent_signals s.
Proof.
  intros sqrt w s Hdb.
  destruct (detect_returns sqrt w) as (m & w0 & Hdet & Hdb0).
  rewrite Hdb in Hdb0.
  destruct (evaluate_rotation_need_returns m w0)
    as (o & w1 & Heval & Hdb1 & Hdec).
  rewrite Hdb0 in Hdb1.
  exists m. unfold make_rotation_decisions_pass, run. rewrite Hdet.
  destruct o as [d |].
  - exists (with_db w1 (insert_rotation d s)). eexists.
    split; [reflexivity |]. split.
    { erewrite try_ok; [reflexivity |].
      rewrite (bind_ok _ _ _ _ _ Hdet), (bind_ok _ _ _ _ _ Heval).
      now apply store_rotation_decision_run. }
    split; [reflexivity |].
    split; [| repeat split].
    right. eexists. split; [reflexivity |].
    destruct (Hdec d eq_refl) as (H1 & H2 & H3 & H4).
    cbn [RotationRow.from_agent RotationRow.to_agent RotationRow.regime
         RotationRow.expected_improvement].
    repeat split; assumption.
  - exists w1, s. split; [reflexivity |]. split.
    { erewrite try_ok; [reflexivity |].
      rewrite (bind_ok _ _ _ _ _ Hdet), (bind_ok _ _ _ _ _ Heval).
      reflexivity. }
    split; [exact Hdb1 |]. split; [now left | repeat split].
Qed.

Lemma rotation_pass_appends_at_most_one_witness :
  exists current_regime w' s',
    run (_detect_market_regime sqrt6) (world_of (1 # 2) (Ok stocked))
    = Ok current_regime /\
    make_rotation_decisions_pass sqrt6 (world_of (1 # 2) (Ok stocked))
    = (Ok tt, w') /\
    db w' = Ok s' /\
    meta_agent_rankings s' = meta_agent_rankings stocked.
Proof.
  destruct (rotation_pass_appends_at_most_one sqrt6
              (world_of (1 # 2) (Ok stocked)) stocked eq_refl)
    as (m & w' & s' & H1 & H2 & H3 & _ & _ & _ & H4 & _).
  exists m, w', s'. repeat split; assumption.
Defined.

(** ** More on the regime classifier *)

Lemma nan_gtb_true v c :
  nan_gtb v c = true -> exists x, v = Some x /\ c < x.
Proof.
  destruct v as [x |]; [| discriminate]. cbn. intros H.
  exists x. split; [reflexivity | now apply Py.gtb_gt].
Qed.

Lemma Qabs_lower_pos t c : c < t -> c < Qabs t.
Proof. intros H. eapply Qlt_le_trans; [exact H | apply Qle_Qabs]. Qed.

Lemma Qabs_lower_neg t c : t < - c -> c < Qabs t.
Proof.
  intros H. assert (Hle : - t <= Qabs t).
  { rewrite <- Qabs_opp. apply Qle_Qabs. }
  lra.
Qed.

(** What the [if]/[elif] chain of the analysis can produce. *)
Lemma regime_and_confidence_bounds v t :
  In (fst (regime_and_confidence v t)) regimes /\
  0.16 <= snd (regime_and_confidence v t) /\
  snd (regime_and_confidence v t) <= 0.95 /\
  (fst (regime_and_confidence v t) = "neutral"%string ->
   snd (regime_and_confidence v t) = 0.8) /\
  (fst (regime_and_confidence v t) = "trending"%string ->
   snd (regime_and_confidence v t) <= 0.4) /\
  (fst (regime_and_confidence v t) = "volatile"%string \/
   fst (regime_and_confidence v t) = "bull"%string \/
   fst (regime_and_confidence v t) = "bear"%string ->
   0.5 < snd (regime_and_confidence v t)) /\
  (fst (regime_and_confidence v t) = "bull"%string -> 0.05 < t) /\
  (fst (regime_and_confidence v t) = "bear"%string -> t < -0.05).
Proof.
  unfold regime_and_confidence.
  destruct (nan_gtb v 0.25) eqn:Ev.
  { destruct (nan_gtb_true _ _ Ev) as (x & -> & Hx). cbn [fst snd].
    split; [cbn; tauto |].
    destruct (Py.min_cases 0.95 (x * 2)) as [[H ->] | [H ->]];
      repeat split; try (intros E; discriminate E); try lra;
      try (intros [E | [E | E]]; try discriminate E; lra). }
  destruct (Py.gtb t 0.05) eqn:Eb.
  { apply Py.gtb_gt in Eb. pose proof (Qabs_lower_pos t 0.05 Eb) as Ha.
    cbn [fst snd]. split; [cbn; tauto |].
    destruct (Py.min_cases 0.95 (Qabs t * 10)) as [[H ->] | [H ->]];
      repeat split; try (intros E; discriminate E); try lra;
      try (intros [E | [E | E]]; try discriminate E; lra). }
  apply Py.gtb_le in Eb.
  destruct (Py.ltb t (-0.05)) eqn:Er.
  { apply Py.ltb_lt in Er.
    assert (Ha : 0.05 < Qabs t) by (apply Qabs_lower_neg; lra).
    cbn [fst snd]. split; [cbn; tauto |].
    destruct (Py.min_cases 0.95 (Qabs t * 10)) as [[H ->] | [H ->]];
      repeat split; try (intros E; discriminate E); try lra;
      try (intros [E | [E | E]]; try discriminate E; lra). }
  apply Py.ltb_ge in Er.
  destruct (Py.ltb (Qabs t) 0.02) eqn:En.
  { cbn [fst snd]. split; [cbn; tauto |].
    repeat split; try (intros E; discriminate E); try reflexivity;
      try discriminate;
      try (intros [E | [E | E]]; discriminate E). }
  apply Py.ltb_ge in En.
  assert (Ha : Qabs t <= 0.05) by (apply Qabs_Qle_condition; split; lra).
  cbn [fst snd]. split; [cbn; tauto |].
  destruct (Py.min_cases 0.95 (Qabs t * 8)) as [[H ->] | [H ->]];
    repeat split; try (intros E; discriminate E); try lra;
    try (intros [E | [E | E]]; discriminate E).
Qed.

(** The snapshot returned when there is no price history. *)
Definition fallback_snapshot (t : Z) : RegimeAnalysis.t :=
  RegimeAnalysis.mk "neutral" 0.6 (Some 0.15) 0.02 1.0 "neutral"
    50.0 0.0 0.5 t.

Lemma analyze_returns sqrt w :
  exists a w',
    _analyze_market_regime sqrt w = (Ok a, w') /\
    db w' = db w /\
    RegimeAnalysis.timestamp a = clock_tape w (clock_pos w) /\
    ((exists b hist,
        spy_history w = Ok (b :: hist) /\
        RegimeAnalysis.regime a
        = fst (regime_and_confidence (volatility_of sqrt (b :: hist))
                 (trend_of (b :: hist))) /\
        RegimeAnalysis.confidence a
        = snd (regime_and_confidence (volatility_of sqrt (b :: hist))
                 (trend_of (b :: hist))) /\
        RegimeAnalysis.trend_direction a
        = (if Py.gtb (trend_of (b :: hist)) 0 then "up" else "down")%string)
     \/ ((spy_history w = Ok [] \/ exists e, spy_history w = Raised e) /\
         a = fallback_snapshot (clock_tape w (clock_pos w)))).
Proof.
  unfold _analyze_market_regime, try_except, bind, history.
  destruct (spy_history w) as [[| b hist] | e] eqn:Hh.
  - eexists. eexists. split; [reflexivity |]. split; [reflexivity |].
    split; [reflexivity |]. right. split; [now left | reflexivity].
  - cbn -[regime_and_confidence volatility_of trend_of Py.mean Py.tail Py.gtb].
    eexists. eexists. split; [reflexivity |]. split; [reflexivity |].
    split; [reflexivity |]. left. exists b, hist.
    split; [reflexivity |].
    cbn [RegimeAnalysis.regime RegimeAnalysis.confidence
         RegimeAnalysis.trend_direction].
    repeat split.
  - eexists. eexists. split; [reflexivity |]. split; [reflexivity |].
    split; [reflexivity |]. right. split; [right; now exists e | reflexivity].
Qed.


(** X25.  Without price data (the provider fails or returns no rows) the
    detection answers neutral and the analysis returns the fixed snapshot:
    neutral, confidence 0.6, volatility 0.15, trend strength 0.02, volume
    ratio 1, direction neutral, RSI 50, MACD 0, Bollinger position 0.5.  No
    random number is drawn. *)
Theorem regime_fallback_without_data :
  forall (sqrt : Q -> Q) (w : World),
    spy_history w = Ok [] \/ (exists e, spy_history w = Raised e) ->
    _detect_market_regime sqrt w = (Ok "neutral"%string, w) /\
    _analyze_market_regime sqrt w
    = (Ok (fallback_snapshot (clock_tape w (clock_pos w))), snd (now w)).
Proof.
  intros sqrt w H.
  unfold _detect_market_regime, _analyze_market_regime, try_except, bind,
    history.
  destruct H as [H | [e H]]; rewrite H; split; reflexivity.
Qed.

Lemma regime_fallback_without_data_witness :
  _detect_market_regime sqrt6 (world_of (1 # 2) (Ok empty_store))
  = (Ok "neutral"%string, world_of (1 # 2) (Ok empty_store)) /\
  run (_analyze_market_regime sqrt6) (world_of (1 # 2) (Ok empty_store))
  = Ok (fallback_snapshot 1793785445000000).
Proof.
  destruct (regime_fallback_without_data sqrt6
              (world_of (1 # 2) (Ok empty_store)))
    as [Hd Ha].
  - right. exists "offline"%string. reflexivity.
  - split; [exact Hd |]. unfold run. rewrite Ha. reflexivity.
Defined.

(** ** From a regime pass to the summary *)

Lemma newest_row_first (l : list RegimeRow.t) (x : RegimeRow.t) :
  (forall r, In r l -> (RegimeRow.created_at r < RegimeRow.created_at x)%Z) ->
  hd_error
    (stable_sort
       (fun a b => (RegimeRow.created_at b <=? RegimeRow.created_at a)%Z)
       (l ++ [x]))
  = Some x.
Proof.
  induction l as [| a l IH]; intros Hold; [reflexivity |].
  cbn [app stable_sort fold_right].
  assert (IH' := IH (fun r Hr => Hold r (or_intror Hr))).
  unfold stable_sort in IH'.
  destruct (fold_right _ [] (l ++ [x])) as [| y rest]; [discriminate |].
  cbn [hd_error] in IH'. injection IH' as ->.
  cbn [insert].
  assert (Hlt : (RegimeRow.created_at x <=? RegimeRow.created_at a)%Z = false).
  { apply Z.leb_gt. apply Hold. now left. }
  rewrite Hlt. reflexivity.
Qed.

(** X26.  A regime pass followed by a read of the summary: when the clock is
    ahead of every stored analysis, the summary reports the regime and the
    confidence of the analysis the pass has just stored, and that regime is
    one of the five labels. *)
Theorem regime_pass_then_summary :
  forall (sqrt : Q -> Q) (w : World) (s : Store),
    db w = Ok s ->
    (forall r, In r (meta_regime_analysis s) ->
               (RegimeRow.created_at r < clock_tape w (clock_pos w))%Z) ->
    exists a p,
      run (_analyze_market_regime sqrt) w = Ok a /\
      run (_ <- update_regime_analysis_pass sqrt ;;
           get_meta_evaluation_summary) w = Ok p /\
      Summary.current_regime p = RegimeAnalysis.regime a /\
      Summary.regime_confidence p = RegimeAnalysis.confidence a /\
      In (Summary.current_regime p) regimes.
Proof.
  intros sqrt w s Hdb Hold.
  destruct (analyze_returns sqrt w) as (a & w1 & Hrun & Hdb1 & Ht & Hcase).
  rewrite Hdb in Hdb1.
  assert (Hpass : update_regime_analysis_pass sqrt w
                  = (Ok tt, with_db w1 (insert_regime a s))).
  { unfold update_regime_analysis_pass.
    erewrite try_ok; [reflexivity |].
    rewrite (bind_ok _ _ _ _ _ Hrun).
    now apply store_regime_analysis_run. }
  assert (Hlatest : select_latest_regime (insert_regime a s)
                    = Some (RegimeRow.mk (RegimeAnalysis.regime a)
                              (RegimeAnalysis.confidence a)
                              (RegimeAnalysis.timestamp a))).
  { unfold select_latest_regime, insert_regime. cbn [meta_regime_analysis].
    apply newest_row_first. intros r Hr. cbn [RegimeRow.created_at].
    rewrite Ht. now apply Hold. }
  exists a. eexists. unfold run. rewrite Hrun. split; [reflexivity |].
  rewrite (bind_ok _ _ _ _ _ Hpass).
  rewrite (summary_run_up (with_db w1 (insert_regime a s))
             (insert_regime a s) eq_refl).
  split; [reflexivity |].
  unfold summary_from. rewrite Hlatest.
  cbn [fst Summary.current_regime Summary.regime_confidence
       RegimeRow.regime RegimeRow.confidence].
  split; [reflexivity |]. split; [reflexivity |].
  destruct Hcase as [(b & hist & _ & Hr & _) | (_ & ->)].
  - rewrite Hr. apply regime_and_confidence_bounds.
  - cbn. tauto.
Qed.

Lemma regime_pass_then_summary_witness :
  exists a p,
    run (_analyze_market_regime sqrt6) (quiet_world (Ok choppy) (Ok stocked))
    = Ok a /\
    run (_ <- update_regime_analysis_pass sqrt6 ;;
         get_meta_evaluation_summary)
        (quiet_world (Ok choppy) (Ok stocked)) = Ok p /\
    Summary.current_regime p = RegimeAnalysis.regime a /\
    Summary.regime_confidence p = RegimeAnalysis.confidence a.
Proof.
  destruct (regime_pass_then_summary sqrt6
              (quiet_world (Ok choppy) (Ok stocked)) stocked eq_refl)
    as (a & p & H1 & H2 & H3 & H4 & _).
  - intros r [<- | [<- | []]]; reflexivity.
  - exists a, p. repeat split; assumption.
Defined.

(** ** More on the performance scorer *)

Lemma confidences_ok predictions :
  Forall (fun p => Signal.confidence p <> None) predictions ->
  exists cs, confidences predictions = Ok cs.
Proof.
  induction 1 as [| p l Hp Hl (cs & Hcs)]; cbn [confidences].
  - eexists; reflexivity.
  - destruct (Signal.confidence p) as [c |]; [| contradiction].
    cbn [float]. rewrite Hcs. eexists; reflexivity.
Qed.

Lemma confidences_null predictions :
  Exists (fun p => Signal.confidence p = None) predictions ->
  confidences predictions = Raised "TypeError".
Proof.
  induction 1 as [p l Hp | p l Hl IH]; cbn [confidences].
  - rewrite Hp. reflexivity.
  - destruct (Signal.confidence p); cbn [float]; [| reflexivity].
    now rewrite IH.
Qed.

Lemma fetch_predictions_run agent w s :
  db w = Ok s ->
  fetch_predictions agent w
  = (Ok (select_predictions s agent (clock_tape w (clock_pos w))), snd (now w)).
Proof.
  intros H. unfold fetch_predictions.
  erewrite bind_ok; [| unfold acquire; rewrite H; reflexivity].
  reflexivity.
Qed.

(** X27.  An agent with a prediction whose confidence is NULL among its selected
    predictions gets the neutral default record, whatever its hit rate. *)
Theorem null_confidence_gives_neutral :
  forall (agent regime : string) (w : World) (s : Store),
    db w = Ok s ->
    Exists (fun p => Signal.confidence p = None)
      (select_predictions s agent (clock_tape w (clock_pos w))) ->
    run (_calculate_agent_performance agent regime) w
    = Ok (neutral_performance agent regime (clock_tape w (S (clock_pos w)))).
Proof.
  intros agent regime w s Hdb Hnull.
  assert (Hbody : performance_body agent regime w
                  = (Raised "TypeError", snd (now w))).
  { unfold performance_body.
    rewrite (bind_ok _ _ _ _ _ (fetch_predictions_run agent w s Hdb)).
    destruct (select_predictions s agent (clock_tape w (clock_pos w)))
      as [| p ps] eqn:Hsel; [inversion Hnull |].
    erewrite bind_raised; [reflexivity |].
    unfold metrics_from_predictions.
    erewrite bind_raised; [reflexivity |].
    unfold lift. rewrite (confidences_null _ Hnull). reflexivity. }
  unfold run, _calculate_agent_performance.
  rewrite (try_raised _ _ _ _ _ Hbody). reflexivity.
Qed.

Lemma null_confidence_gives_neutral_witness :
  run (_calculate_agent_performance "RLStrategyAgent" "bull")
      (world_of (1 # 2) (Ok three_signals))
  = Ok (neutral_performance "RLStrategyAgent" "bull" 1793785445000001).
Proof.
  apply (null_confidence_gives_neutral "RLStrategyAgent" "bull"
           (world_of (1 # 2) (Ok three_signals)) three_signals eq_refl).
  apply Exists_cons_hd. reflexivity.
Defined.

Lemma max_cases a b :
  (a < b /\ Py.max a b = b) \/ (b <= a /\ Py.max a b = a).
Proof.
  unfold Py.max. destruct (Py.gtb b a) eqn:E.
  - left. now apply Py.gtb_gt in E.
  - right. now apply Py.gtb_le in E.
Qed.

Lemma len_pos {A} (l : list A) : l <> [] -> 0 < Py.len l.
Proof.
  destruct l as [| x l]; [contradiction |]. intros _.
  unfold Py.len. cbn [length]. rewrite Nat2Z.inj_succ.
  unfold Qlt. cbn. lia.
Qed.

Lemma len_filter_le {A} (f : A -> bool) (l : list A) :
  Py.len (filter f l) <= Py.len l.
Proof.
  unfold Py.len. rewrite <- Zle_Qle. apply Nat2Z.inj_le, filter_length_le.
Qed.

Lemma len_nonneg {A} (l : list A) : 0 <= Py.len l.
Proof. unfold Py.len, Qle. cbn. lia. Qed.

(** The hit rate of a list of predictions. *)
Definition hit_rate (predictions : list Signal.t) : Q :=
  Py.len (filter (fun p => direction_eqb (Signal.predicted_direction p)
                                         (Signal.actual_direction p))
                 predictions)
  / Py.len predictions.

Lemma hit_rate_bounds predictions :
  predictions <> [] -> 0 <= hit_rate predictions /\ hit_rate predictions <= 1.
Proof.
  intros Hne. unfold hit_rate. pose proof (len_pos _ Hne) as Hpos.
  split.
  - apply Qle_shift_div_l; [exact Hpos |]. rewrite Qmult_0_l.
    apply len_nonneg.
  - apply Qle_shift_div_r; [exact Hpos |]. rewrite Qmult_1_l.
    apply len_filter_le.
Qed.

Lemma history_run agent regime w s cs :
  db w = Ok s ->
  select_predictions s agent (clock_tape w (clock_pos w)) <> [] ->
  confidences (select_predictions s agent (clock_tape w (clock_pos w)))
  = Ok cs ->
  exists t,
    run (_calculate_agent_performance agent regime) w
    = Ok (let accuracy :=
            hit_rate (select_predictions s agent (clock_tape w (clock_pos w)))
          in
          AgentPerformance.mk agent accuracy
            (Py.max 0 ((accuracy - 0.5) * 4)) ((accuracy - 0.5) * 0.2)
            (Py.max 0 (0.1 - accuracy * 0.2)) accuracy (Py.mean cs)
            (0.1 + (2.0 - 0.1) * random_tape w (random_pos w))
            regime t).
Proof.
  intros Hdb Hne Hcs.
  unfold run, _calculate_agent_performance.
  erewrite try_ok; [eexists; reflexivity |].
  unfold performance_body.
  rewrite (bind_ok _ _ _ _ _ (fetch_predictions_run agent w s Hdb)).
  pose proof (len_pos _ Hne) as Hpos. apply Py.gtb_gt in Hpos.
  destruct (select_predictions s agent (clock_tape w (clock_pos w)))
    as [| p ps] eqn:Hsel; [contradiction |].
  erewrite bind_ok.
  2:{ unfold metrics_from_predictions.
      erewrite bind_ok; [| unfold lift; rewrite Hcs; reflexivity].
      rewrite Hpos. reflexivity. }
  reflexivity.
Qed.

(** X28.  With a prediction history (and no NULL confidence in it) the record is
    computed from the hit rate: accuracy and win rate are the fraction of
    predictions whose direction was right, in [0, 1]; the
    risk-adjusted-return score is max(0, (accuracy - 0.5) * 4), in [0, 2],
    and zero up to an accuracy of 0.5; the cumulative return is
    (accuracy - 0.5) * 0.2, in [-0.1, 0.1]; the max drawdown is
    max(0, 0.1 - accuracy * 0.2), in [0, 0.1], and zero from an accuracy of
    0.5 on; the response time is drawn in [0.1, 2). *)
Theorem history_metrics_bounds :
  forall (agent regime : string) (w : World) (s : Store),
    unit_tape w ->
    db w = Ok s ->
    select_predictions s agent (clock_tape w (clock_pos w)) <> [] ->
    Forall (fun p => Signal.confidence p <> None)
      (select_predictions s agent (clock_tape w (clock_pos w))) ->
    exists p,
      run (_calculate_agent_performance agent regime) w = Ok p /\
      AgentPerformance.accuracy p
      = hit_rate (select_predictions s agent (clock_tape w (clock_pos w))) /\
      AgentPerformance.win_rate p = AgentPerformance.accuracy p /\
      0 <= AgentPerformance.accuracy p /\ AgentPerformance.accuracy p <= 1 /\
      AgentPerformance.sharpe_ratio p
      = Py.max 0 ((AgentPerformance.accuracy p - 0.5) * 4) /\
      0 <= AgentPerformance.sharpe_ratio p /\
      AgentPerformance.sharpe_ratio p <= 2 /\
      (AgentPerformance.accuracy p <= 0.5 ->
       AgentPerformance.sharpe_ratio p == 0) /\
      AgentPerformance.total_return p
      = (AgentPerformance.accuracy p - 0.5) * 0.2 /\
      - 0.1 <= AgentPerformance.total_return p /\
      AgentPerformance.total_return p <= 0.1 /\
      0 <= AgentPerformance.max_drawdown p /\
      AgentPerformance.max_drawdown p <= 0.1 /\
      (0.5 <= AgentPerformance.accuracy p ->
       AgentPerformance.max_drawdown p == 0) /\
      0.1 <= AgentPerformance.response_time p /\
      AgentPerformance.response_time p < 2.
Proof.
  intros agent regime w s Htape Hdb Hne Hconf.
  destruct (confidences_ok _ Hconf) as [cs Hcs].
  destruct (history_run agent regime w s cs Hdb Hne Hcs) as [t Hrun].
  eexists. split; [exact Hrun |].
  cbv zeta.
  cbn [AgentPerformance.accuracy AgentPerformance.win_rate
       AgentPerformance.sharpe_ratio AgentPerformance.total_return
       AgentPerformance.max_drawdown AgentPerformance.response_time].
  destruct (hit_rate_bounds _ Hne) as [Hlo Hhi].
  set (acc := hit_rate _) in *.
  destruct (Htape (random_pos w)) as [H0 H1].
  destruct (uniform_bounds_strict 0.1 2.0 _ eq_refl H0 H1) as [Hr1 Hr2].
  destruct (max_cases 0 ((acc - 0.5) * 4)) as [[Hs ->] | [Hs ->]];
    destruct (max_cases 0 (0.1 - acc * 0.2)) as [[Hd ->] | [Hd ->]];
    repeat split; try reflexivity; try assumption; try lra;
    try (intros; lra).
Qed.

Lemma history_metrics_bounds_witness :
  exists p,
    run (_calculate_agent_performance "RiskAgent" "bull")
        (world_of (1 # 2) (Ok three_signals)) = Ok p /\
    AgentPerformance.accuracy p
    = hit_rate (select_predictions three_signals "RiskAgent" 1793785445000000) /\
    0 <= AgentPerformance.sharpe_ratio p.
Proof.
  destruct (history_metrics_bounds "RiskAgent" "bull"
              (world_of (1 # 2) (Ok three_signals)) three_signals)
    as (p & Hrun & Hacc & _ & _ & _ & _ & Hs & _).
  - intros n. split; [discriminate | reflexivity].
  - reflexivity.
  - vm_compute. discriminate.
  - vm_compute. repeat constructor; discriminate.
  - exists p. repeat split; assumption.
Defined.

(** ** From a ranking pass to the summary *)

Lemma stable_sort_sorted_id {A} (before : A -> A -> bool) l :
  StronglySorted (fun a b => before a b = true) l ->
  stable_sort before l = l.
Proof.
  induction 1 as [| x l Hs IH Hx]; [reflexivity |].
  cbn [stable_sort fold_right]. fold (stable_sort before l). rewrite IH.
  destruct l as [| y l']; [reflexivity |].
  cbn [insert]. inversion Hx as [| ? ? Hxy _]; subst. now rewrite Hxy.
Qed.

Lemma firstn_seq_min n : forall start len,
  firstn n (seq start len) = seq start (Nat.min n len).
Proof.
  induction n as [| n IH]; intros start [| len]; cbn; try reflexivity.
  now rewrite IH.
Qed.

Lemma seq_sorted len : forall start,
  StronglySorted Z.le (map Z.of_nat (seq start len)).
Proof.
  induction len as [| len IH]; intros start; cbn [seq map]; constructor.
  - apply IH.
  - apply Forall_forall. intros z Hz. apply in_map_iff in Hz.
    destruct Hz as (k & <- & Hk). apply in_seq in Hk. lia.
Qed.

Lemma StronglySorted_map_inv {A B} (f : A -> B) (R : B -> B -> Prop) l :
  StronglySorted R (map f l) -> StronglySorted (fun a b => R (f a) (f b)) l.
Proof.
  induction l as [| x l IH]; cbn [map]; intros H; constructor;
    inversion H as [| ? ? Hs Hx]; subst.
  - now apply IH.
  - rewrite Forall_map in Hx. exact Hx.
Qed.

Lemma well_ranked_top_ten rows :
  well_ranked rows ->
  stable_sort (fun x y => (RankingRow.rank x <=? RankingRow.rank y)%Z) rows
  = rows.
Proof.
  intros (_ & Hranks & _). apply stable_sort_sorted_id.
  eapply StronglySorted_weaken;
    [| apply (StronglySorted_map_inv RankingRow.rank Z.le)].
  - intros a b H. now apply Z.leb_le.
  - rewrite Hranks. apply seq_sorted.
Qed.

(** X29.  A ranking pass followed by a read of the summary: when every stored
    regime analysis carries one of the five labels, the summary lists the
    top of a ranking just stored: at least one agent and at most ten, with
    the ranks 1, 2, ..., k in this order and scores that never increase. *)
Theorem rankings_pass_then_summary :
  forall (w : World) (s : Store),
    db w = Ok s ->
    Forall (fun r => In (RegimeRow.regime r) regimes) (meta_regime_analysis s) ->
    exists p,
      run (_ <- analyze_agent_rankings_pass ;; get_meta_evaluation_summary) w
      = Ok p /\
      Summary.top_agents p <> [] /\
      (length (Summary.top_agents p) <= 10)%nat /\
      map TopAgent.rank (Summary.top_agents p)
      = map Z.of_nat (seq 1 (length (Summary.top_agents p))) /\
      StronglySorted (fun a b => b <= a)
        (map TopAgent.composite_score (Summary.top_agents p)).
Proof.
  intros w s Hdb Hlabels.
  assert (Hnodup : NoDup regimes).
  { unfold regimes. repeat constructor; cbn; intuition discriminate. }
  destruct (rank_each_run regimes Hnodup w s Hdb)
    as (w' & s' & Hrun & Hdb' & Hin & _ & _ & Hreg & _).
  assert (Hpass : analyze_agent_rankings_pass w = (Ok tt, w')).
  { unfold analyze_agent_rankings_pass.
    erewrite try_ok; [reflexivity | exact Hrun]. }
  eexists. unfold run. rewrite (bind_ok _ _ _ _ _ Hpass).
  rewrite (summary_run_up w' s' Hdb'). split; [reflexivity |].
  unfold summary_from. cbn [Summary.top_agents].
  set (current :=
         match select_latest_regime s' with
         | Some r => RegimeRow.regime r
         | None => "neutral"%string
         end).
  assert (Hcur : In current regimes).
  { unfold current, select_latest_regime. rewrite Hreg.
    destruct (stable_sort _ (meta_regime_analysis s)) as [| r l] eqn:Hs;
      cbn [hd_error]; [cbn; tauto |].
    rewrite Forall_forall in Hlabels. apply Hlabels.
    eapply Permutation_in; [apply Permutation_sym, stable_sort_perm |].
    rewrite Hs. now left. }
  pose proof (Hin current Hcur) as Hwr.
  unfold select_rankings. fold (rows_of current s').
  rewrite (well_ranked_top_ten _ Hwr).
  destruct Hwr as (Hne & Hranks & Hscores).
  rewrite length_map, map_map.
  change (fun x => TopAgent.rank (top_agent_of x)) with RankingRow.rank.
  split.
  { intros H. apply map_eq_nil in H.
    destruct (rows_of current s'); [now apply Hne | discriminate]. }
  split; [apply firstn_le_length |].
  split.
  { rewrite <- firstn_map, Hranks, firstn_map, firstn_seq_min, length_firstn.
    reflexivity. }
  rewrite map_map.
  change (fun x => TopAgent.composite_score (top_agent_of x))
    with RankingRow.composite_score.
  rewrite <- firstn_map. now apply StronglySorted_firstn.
Qed.

Lemma rankings_pass_then_summary_witness :
  exists p,
    run (_ <- analyze_agent_rankings_pass ;; get_meta_evaluation_summary)
        (world_of (1 # 2) (Ok stocked)) = Ok p /\
    Summary.top_agents p <> [] /\
    (length (Summary.top_agents p) <= 10)%nat.
Proof.
  destruct (rankings_pass_then_summary (world_of (1 # 2) (Ok stocked)) stocked
              eq_refl)
    as (p & Hrun & Hne & Hlen & _).
  - repeat constructor; cbn; tauto.
  - exists p. repeat split; assumption.
Defined.

(** ** The resolution of the decision identifier *)

Lemma same_second_same_fields t1 t2 :
  (t1 / Fmt.us_per_second = t2 / Fmt.us_per_second)%Z ->
  (t1 / Fmt.us_per_day = t2 / Fmt.us_per_day)%Z /\
  (t1 mod Fmt.us_per_day / Fmt.us_per_second
   = t2 mod Fmt.us_per_day / Fmt.us_per_second)%Z.
Proof.
  unfold Fmt.us_per_day. intros H.
  assert (Hday : forall t,
             (t / (86400 * Fmt.us_per_second)
              = t / Fmt.us_per_second / 86400)%Z).
  { intros t. rewrite Z.mul_comm. symmetry. apply Z.div_div.
    - unfold Fmt.us_per_second. lia.
    - lia. }
  assert (Hsec : forall t,
             (t mod (86400 * Fmt.us_per_second) / Fmt.us_per_second
              = (t / Fmt.us_per_second) mod 86400)%Z).
  { intros t. rewrite (Z.mul_comm 86400).
    rewrite Z.rem_mul_r by (unfold Fmt.us_per_second; lia).
    rewrite Z.add_comm, Z.mul_comm, Z.div_add_l
      by (unfold Fmt.us_per_second; lia).
    rewrite (Z.div_small (t mod Fmt.us_per_second));
      [lia | apply Z.mod_pos_bound; unfold Fmt.us_per_second; lia]. }
  rewrite !Hday, !Hsec, H. split; reflexivity.
Qed.

Lemma strftime_second_resolution t1 t2 :
  (t1 / Fmt.us_per_second = t2 / Fmt.us_per_second)%Z ->
  Fmt.strftime_compact t1 = Fmt.strftime_compact t2.
Proof.
  intros H. destruct (same_second_same_fields t1 t2 H) as [Hd Hs].
  unfold Fmt.strftime_compact, Fmt.civil_of.
  cbn [Fmt.year Fmt.month Fmt.day Fmt.hour Fmt.minute Fmt.second].
  rewrite Hd, Hs. reflexivity.
Qed.

(** X30.  The decision identifier has the resolution of a second: two
    decisions emitted from the same ranking whose first clock readings fall
    in the same second carry the same [decision_id], whatever their
    timestamps. *)
Theorem decision_id_has_second_resolution :
  forall (active : list string) (rankings : list Ranking.t)
         (current_regime : string) (w1 w2 : World)
         (d1 d2 : RotationDecision.t),
    (clock_tape w1 (clock_pos w1) / 1000000
     = clock_tape w2 (clock_pos w2) / 1000000)%Z ->
    run (rotation_decision active rankings current_regime) w1 = Ok (Some d1) ->
    run (rotation_decision active rankings current_regime) w2 = Ok (Some d2) ->
    RotationDecision.decision_id d1 = RotationDecision.decision_id d2 /\
    RotationDecision.timestamp d1 = clock_tape w1 (S (clock_pos w1)) /\
    RotationDecision.timestamp d2 = clock_tape w2 (S (clock_pos w2)).
Proof.
  intros active rankings current_regime w1 w2 d1 d2 Hsec H1 H2.
  unfold run in H1, H2.
  destruct (rotation_decision_cases active rankings current_regime w1)
    as [Hn | (b1 & r1 & x1 & f1 & _ & _ & _ & _ & _ & _ & _ & Hrun1)];
    [rewrite Hn in H1; discriminate |].
  destruct (rotation_decision_cases active rankings current_regime w2)
    as [Hn | (b2 & r2 & x2 & f2 & _ & _ & _ & _ & _ & _ & _ & Hrun2)];
    [rewrite Hn in H2; discriminate |].
  rewrite Hrun1 in H1. rewrite Hrun2 in H2. cbn [fst] in H1, H2.
  injection H1 as <-. injection H2 as <-. unfold decision_of.
  cbn [RotationDecision.decision_id RotationDecision.timestamp].
  split; [| split; reflexivity].
  f_equal. apply strftime_second_resolution. exact Hsec.
Qed.

(** Two worlds half a second apart. *)
Definition at_time (t : Z) : World :=
  {| random_tape := fun _ => 1 # 2; random_pos := 0;
     clock_tape := fun n => (t + Z.of_nat n)%Z; clock_pos := 0;
     spy_history := Raised "offline"; db := Raised "down" |}.

Lemma decision_id_has_second_resolution_witness :
  exists d1 d2,
    run (rotation_decision current_agents three_ranked "bull")
        (at_time 1793785445000000) = Ok (Some d1) /\
    run (rotation_decision current_agents three_ranked "bull")
        (at_time 1793785445500000) = Ok (Some d2) /\
    RotationDecision.decision_id d1 = RotationDecision.decision_id d2 /\
    RotationDecision.timestamp d1 <> RotationDecision.timestamp d2.
Proof.
  eexists. eexists. split; [vm_compute; reflexivity |].
  split; [vm_compute; reflexivity |].
  edestruct (decision_id_has_second_resolution current_agents three_ranked
               "bull" (at_time 1793785445000000) (at_time 1793785445500000))
    as (Hid & _ & _).
  - vm_compute. reflexivity.
  - vm_compute. reflexivity.
  - vm_compute. reflexivity.
  - split; [exact Hid |]. vm_compute. discriminate.
Defined.
